(** * CirAI: the Desmos calculator bootstrapper ([static/desmos_calculator.js])

    A shallow embedding of [DesmosCalculatorManager] and [initializeCalculator].
    The graphing widget, the DOM and the timer queue are external to the
    script: the widget and the DOM are an interface ([External]) the script is
    parametrised by, the timer queue is part of the state, and everything the
    script does to the outside (console lines, widget calls, globals, timers)
    is collected as a list of events. *)

From Stdlib Require Import String ZArith List Bool Arith Lia DecimalString.
Import ListNotations.
Open Scope string_scope.

(** ** JavaScript values and object literals *)

(** The values the script passes around.  [VHandle] is the reference to the
    widget object held in [this.calculator]; [VTypeError] is what reading a
    property of [null] or [undefined] throws; [VError] is any other thrown
    value. *)
Inductive value : Type :=
  | VUndefined
  | VBool (b : bool)
  | VNum (n : Z)
  | VStr (s : string)
  | VHandle
  | VTypeError
  | VError (msg : string).

(** An object literal: its keys in source order. *)
Definition obj : Type := list (string * value).

(** Property read [o.k]: [undefined] when the key is absent. *)
Fixpoint get (k : string) (o : obj) : value :=
  match o with
  | [] => VUndefined
  | (k', v) :: o' => if String.eqb k k' then v else get k o'
  end.

(** Property write [o.k = v]. *)
Fixpoint set (k : string) (v : value) (o : obj) : obj :=
  match o with
  | [] => [(k, v)]
  | (k', v') :: o' =>
      if String.eqb k k' then (k, v) :: o' else (k', v') :: set k v o'
  end.

Record Bounds : Type := mkBounds {
  left : Z;
  right : Z;
  bottom : Z;
  top : Z
}.

Record SliderBounds : Type := mkSliderBounds {
  min : Z;
  max : Z;
  step : Z
}.

Record Expression : Type := mkExpression {
  id : string;
  latex : string;
  sliderBounds : option SliderBounds
}.

(** Template-literal interpolation of a number. *)
Definition string_of_Z (z : Z) : string :=
  NilZero.string_of_int (Z.to_int z).

Definition string_of_nat (n : nat) : string :=
  NilEmpty.string_of_uint (Nat.to_uint n).

(** The text both bounds lines interpolate:
    [left=${b.left}, right=${b.right}, bottom=${b.bottom}, top=${b.top}]. *)
Definition bounds_text (b : Bounds) : string :=
  "left=" ++ string_of_Z (left b) ++ ", right=" ++ string_of_Z (right b)
  ++ ", bottom=" ++ string_of_Z (bottom b) ++ ", top=" ++ string_of_Z (top b).

(** ** Configuration constants *)

Definition CALCULATOR_CONFIG : obj :=
  [ ("allowComplex", VBool true);
    ("expressions", VBool true);
    ("settingsMenu", VBool true);
    ("smartGrapher", VBool true) ].

Definition DEFAULT_SETTINGS : obj :=
  [ ("degreeMode", VBool false);
    ("xAxisScale", VStr "logarithmic");
    ("yAxisScale", VStr "linear") ].

Definition DEFAULT_BOUNDS : Bounds :=
  {| left := 10000; right := 10000000000; bottom := -2; top := 2 |}.

Definition unit_def (i l : string) : Expression :=
  {| id := i; latex := l; sliderBounds := None |}.

Definition UNIT_DEFINITIONS : list Expression :=
  [ unit_def "f_unit" "f = 10^{-15}";
    unit_def "p_unit" "p = 10^{-12}";
    unit_def "n_unit" "n = 10^{-9}";
    unit_def "u_unit" "u = 10^{-6}";
    unit_def "m_unit" "m = 10^{-3}";
    unit_def "k_unit" "k = 10^{3}";
    unit_def "M_unit" "M = 10^{6}";
    unit_def "G_unit" "G = 10^{9}" ].

(** The list local to [addCoreExpressions]; the [z_val] entry is commented
    out in the source. *)
Definition coreExpressions : list Expression :=
  [ {| id := "f"; latex := "Z = \frac{1}{1+sR_{e}C_{e}}"; sliderBounds := None |};
    {| id := "slider1"; latex := "R_{e}=100";
       sliderBounds := Some {| min := 100; max := 100000000; step := 1 |} |};
    {| id := "slider2"; latex := "C_{e} = 1p"; sliderBounds := None |};
    {| id := "z_abs"; latex := "\left|Z\right|"; sliderBounds := None |};
    {| id := "z_phase";
       latex := "\arctan\left(\frac{\operatorname{imag}\left(Z\right)}{\operatorname{real}\left(Z\right)}\right)";
       sliderBounds := None |};
    {| id := "s_def"; latex := "s = i * 2 * \pi * x"; sliderBounds := None |} ].

(** The list local to [applySettingsIndividually]. *)
Definition settingsToTry : list (obj * string) :=
  [ ([("degreeMode", VBool false)], "Degree mode");
    ([("xAxisScale", VStr "logarithmic")], "X-axis logarithmic scale") ].

(** ** Completions, events *)

(** How a JavaScript evaluation ends: normally with a value, or by throwing. *)
Inductive result (A : Type) : Type :=
  | Ret (a : A)
  | Throw (e : value).
Arguments Ret {A} a.
Arguments Throw {A} e.

(** The three widget methods the script calls, with their argument. *)
Inductive Call : Type :=
  | CUpdateSettings (o : obj)
  | CSetMathBounds (b : Bounds)
  | CSetExpression (e : Expression).

Inductive Level : Type := Log | Error.

(** The two timer callbacks. *)
Inductive Task : Type := TApplySettings | TAddExpressions.

(** What the script does to its surroundings, in program order. *)
Inductive Event : Type :=
  | EConsole (l : Level) (args : list value)
  | EConstruct (mount : string) (config : obj) (r : result unit)
  | ECall (c : Call) (r : result unit)
  | EGlobal (name : string) (v : value)
  | ETimeout (t : Task) (delay : nat).

(** ** The surroundings of the script *)

(** The DOM and the Desmos library.  The widget is a black box with a state of
    its own; a method may change that state and return, or change it and
    throw.  [settings] is the [handle.settings] property ([None]: the property
    is [undefined]). *)
Class External : Type := {
  Element : Type;
  Widget : Type;
  getElementById : string -> option Element;
  GraphingCalculator : Element -> obj -> result Widget;
  updateSettings : obj -> Widget -> Widget * result unit;
  setMathBounds : Bounds -> Widget -> Widget * result unit;
  setExpression : Expression -> Widget -> Widget * result unit;
  settings : Widget -> option obj
}.

Section Manager.

Context {X : External}.

(** ** State *)

(** The fields of the [DesmosCalculatorManager] object, the [window] globals
    and the timer queue of the page.  There is one widget object;
    [calculator] holds its current state ([None]: [this.calculator] is
    [null]) and [window.desmosCalc] is a second reference to it. *)
Record State : Type := mkState {
  elementId : string;
  zLatex : string;
  calculator : option Widget;
  isReady : bool;
  isFullyReady : bool;
  window : obj;
  now : nat;
  timers : list (nat * Task)
}.

Definition with_calculator (c : option Widget) (s : State) : State :=
  mkState (elementId s) (zLatex s) c (isReady s) (isFullyReady s)
          (window s) (now s) (timers s).

Definition with_isReady (b : bool) (s : State) : State :=
  mkState (elementId s) (zLatex s) (calculator s) b (isFullyReady s)
          (window s) (now s) (timers s).

Definition with_isFullyReady (b : bool) (s : State) : State :=
  mkState (elementId s) (zLatex s) (calculator s) (isReady s) b
          (window s) (now s) (timers s).

Definition with_window (w : obj) (s : State) : State :=
  mkState (elementId s) (zLatex s) (calculator s) (isReady s) (isFullyReady s)
          w (now s) (timers s).

Definition with_clock (t : nat) (q : list (nat * Task)) (s : State) : State :=
  mkState (elementId s) (zLatex s) (calculator s) (isReady s) (isFullyReady s)
          (window s) t q.

(** ** The monad of the script: state, events, exceptions *)

Record Out (A : Type) : Type := mkOut {
  st : State;
  evs : list Event;
  res : result A
}.
Arguments mkOut {A} st evs res.
Arguments st {A} o.
Arguments evs {A} o.
Arguments res {A} o.

Definition M (A : Type) : Type := State -> Out A.

Definition ret {A : Type} (a : A) : M A :=
  fun s => mkOut s [] (Ret a).

Definition throw {A : Type} (e : value) : M A :=
  fun s => mkOut s [] (Throw e).

Definition bind {A B : Type} (m : M A) (k : A -> M B) : M B :=
  fun s =>
    let o := m s in
    match res o with
    | Ret a => let o' := k a (st o) in mkOut (st o') (evs o ++ evs o') (res o')
    | Throw e => mkOut (st o) (evs o) (Throw e)
    end.

(** [try { m } catch (e) { h e }] *)
Definition try_catch (m : M unit) (h : value -> M unit) : M unit :=
  fun s =>
    let o := m s in
    match res o with
    | Ret a => o
    | Throw e => let o' := h e (st o) in mkOut (st o') (evs o ++ evs o') (res o')
    end.

Notation "x <- m ;; k" := (bind m (fun x => k))
  (at level 61, m at next level, right associativity).
Notation "m ;; k" := (bind m (fun _ => k))
  (at level 61, right associativity).
Notation "'TRY' m 'CATCH' e => h" := (try_catch m (fun e => h))
  (at level 60, e name, m at level 61, h at level 61).

(** [l.forEach((x, index) => f x index)]: a throw ends the iteration. *)
Fixpoint forEach_from {A : Type} (i : nat) (l : list A) (f : A -> nat -> M unit)
  : M unit :=
  match l with
  | [] => ret tt
  | x :: l' => f x i ;; forEach_from (S i) l' f
  end.

Definition forEach {A : Type} (l : list A) (f : A -> nat -> M unit) : M unit :=
  forEach_from 0 l f.

(** ** Primitive actions *)

Definition emit (ev : Event) : M unit :=
  fun s => mkOut s [ev] (Ret tt).

Definition console_log (args : list value) : M unit := emit (EConsole Log args).
Definition console_error (args : list value) : M unit := emit (EConsole Error args).

Definition invoke (c : Call) (w : Widget) : Widget * result unit :=
  match c with
  | CUpdateSettings o => updateSettings o w
  | CSetMathBounds b => setMathBounds b w
  | CSetExpression e => setExpression e w
  end.

(** [this.calculator.<method>(<argument>)]: a [TypeError] when
    [this.calculator] is [null], the widget's own completion otherwise. *)
Definition widget_call (c : Call) : M unit :=
  fun s =>
    match calculator s with
    | None => mkOut s [] (Throw VTypeError)
    | Some w =>
        let (w', r) := invoke c w in
        mkOut (with_calculator (Some w') s) [ECall c r] r
    end.

(** [this.calculator.settings.<k>] *)
Definition read_setting (k : string) : M value :=
  fun s =>
    match calculator s with
    | None => mkOut s [] (Throw VTypeError)
    | Some w =>
        match settings w with
        | None => mkOut s [] (Throw VTypeError)
        | Some o => mkOut s [] (Ret (get k o))
        end
    end.

Definition set_isReady (b : bool) : M unit :=
  fun s => mkOut (with_isReady b s) [] (Ret tt).

Definition set_isFullyReady (b : bool) : M unit :=
  fun s => mkOut (with_isFullyReady b s) [] (Ret tt).

(** [window.<name> = v] *)
Definition set_global (name : string) (v : value) : M unit :=
  fun s => mkOut (with_window (set name v (window s)) s) [EGlobal name v] (Ret tt).

(** The timer queue is kept in firing order: by due time, and among equal due
    times by order of registration. *)
Fixpoint enqueue (due : nat) (t : Task) (q : list (nat * Task)) : list (nat * Task) :=
  match q with
  | [] => [(due, t)]
  | (d, t') :: q' =>
      if Nat.ltb due d then (due, t) :: q else (d, t') :: enqueue due t q'
  end.

(** [setTimeout(<callback t>, delay)] *)
Definition setTimeout (t : Task) (delay : nat) : M unit :=
  fun s =>
    mkOut (with_clock (now s) (enqueue (now s + delay) t (timers s)) s)
          [ETimeout t delay] (Ret tt).

(** ** The methods of [DesmosCalculatorManager] *)

Definition logSettingsStatus : M unit :=
  console_log [VStr "Settings applied successfully!"] ;;
  d <- read_setting "degreeMode" ;;
  console_log [VStr "Degree Mode:"; d] ;;
  x <- read_setting "xAxisScale" ;;
  console_log [VStr "X Axis Scale:"; x] ;;
  y <- read_setting "yAxisScale" ;;
  console_log [VStr "Y Axis Scale:"; y] ;;
  console_log [VStr ("Math bounds should now be: " ++ bounds_text DEFAULT_BOUNDS)].

(** The arrow function [applySettingsIndividually] passes to [forEach]. *)
Definition try_setting (entry : obj * string) (_ : nat) : M unit :=
  let '(setting, name) := entry in
  TRY
    widget_call (CUpdateSettings setting) ;;
    console_log [VStr (name ++ " applied successfully")]
  CATCH e =>
    console_error [VStr (name ++ " failed:"); e].

Definition applySettingsIndividually : M unit :=
  forEach settingsToTry try_setting ;;
  TRY
    widget_call (CSetMathBounds DEFAULT_BOUNDS) ;;
    console_log [VStr "Math bounds applied successfully"]
  CATCH e =>
    console_error [VStr "Math bounds failed:"; e].

(** The arrow function [addCoreExpressions] passes to [forEach]. *)
Definition add_core (expr : Expression) (_ : nat) : M unit :=
  widget_call (CSetExpression expr).

Definition addCoreExpressions : M unit :=
  forEach coreExpressions add_core.

(** The arrow function [addUnitDefinitions] passes to [forEach]. *)
Definition add_unit (u : Expression) (index : nat) : M unit :=
  TRY
    widget_call (CSetExpression u) ;;
    console_log [VStr ("Unit " ++ string_of_nat (index + 1) ++ " added successfully")]
  CATCH e =>
    console_error [VStr ("Unit " ++ string_of_nat (index + 1) ++ " failed:"); e].

Definition addUnitDefinitions : M unit :=
  forEach UNIT_DEFINITIONS add_unit.

(** The [try] block of the timer callback of [addExpressions]. *)
Definition addExpressions_try : M unit :=
  addCoreExpressions ;;
  addUnitDefinitions ;;
  console_log [VStr "All expressions added successfully!"] ;;
  set_isFullyReady true ;;
  set_global "calculatorFullyReady" (VBool true).

(** The body of the timer callback of [addExpressions]. *)
Definition addExpressions_callback : M unit :=
  console_log [VStr "Adding expressions..."] ;;
  TRY
    addExpressions_try
  CATCH error =>
    console_error [VStr "Error adding expressions:"; error].

Definition addExpressions : M unit := setTimeout TAddExpressions 200.

(** The [try] block of the timer callback of [applySettings]. *)
Definition applySettings_try : M unit :=
  widget_call (CUpdateSettings DEFAULT_SETTINGS) ;;
  widget_call (CSetMathBounds DEFAULT_BOUNDS) ;;
  console_log [VStr ("setMathBounds called with bounds: " ++ bounds_text DEFAULT_BOUNDS)] ;;
  logSettingsStatus ;;
  set_isReady true ;;
  set_global "calculatorReady" (VBool true).

(** The [try]/[catch] statement of the timer callback of [applySettings]. *)
Definition applySettings_guarded : M unit :=
  TRY
    applySettings_try
  CATCH error =>
    (console_error [VStr "Error applying settings:"; error] ;;
     applySettingsIndividually).

(** The body of the timer callback of [applySettings]. *)
Definition applySettings_callback : M unit :=
  console_log [VStr "Applying calculator settings..."] ;;
  applySettings_guarded ;;
  addExpressions.

Definition applySettings : M unit := setTimeout TApplySettings 500.

(** [this.calculator = Desmos.GraphingCalculator(element, config)] *)
Definition construct (element : Element) (config : obj) : M unit :=
  fun s =>
    match GraphingCalculator element config with
    | Ret w => mkOut (with_calculator (Some w) s)
                     [EConstruct (elementId s) config (Ret tt)] (Ret tt)
    | Throw e => mkOut s [EConstruct (elementId s) config (Throw e)] (Throw e)
    end.

Definition init : M unit :=
  console_log [VStr "Initializing Desmos Calculator..."] ;;
  fun s =>
    match getElementById (elementId s) with
    | None =>
        console_error [VStr ("Element with ID '" ++ elementId s ++ "' not found")] s
    | Some element =>
        (construct element CALCULATOR_CONFIG ;;
         set_global "desmosCalc" VHandle ;;
         console_log [VStr "Calculator object available as window.desmosCalc for debugging"] ;;
         applySettings) s
    end.

(** [getStatus()]; the [calculator] field of the result is the handle. *)
Definition getStatus (s : State) : bool * bool * option Widget :=
  (isReady s, isFullyReady s, calculator s).

(** [new DesmosCalculatorManager(elementId, zLatex)] in a page whose globals
    are [w], at time [t] with timers [q] pending. *)
Definition DesmosCalculatorManager (eid z : string)
    (w : obj) (t : nat) (q : list (nat * Task)) : State :=
  mkState eid z None false false w t q.

(** A freshly loaded page: no globals of the script, no timers. *)
Definition new_manager (eid z : string) : State :=
  DesmosCalculatorManager eid z [] 0 [].

(** [initializeCalculator(zLatex)] on a freshly loaded page; the returned
    manager is the state of the outcome. *)
Definition initializeCalculator (z : string) : Out unit :=
  init (new_manager "calculator" z).

(** ** The timer loop of the page *)

Definition callback (t : Task) : M unit :=
  match t with
  | TApplySettings => applySettings_callback
  | TAddExpressions => addExpressions_callback
  end.

(** The next due timer fires and its callback runs; nothing happens when no
    timer is pending.  Timers fire in the order of their due times.  The
    clock is the earliest time at which this can happen: [setTimeout] only
    gives a minimum delay and a callback takes time, so the instants of a
    real run can only be later; nothing below depends on them. *)
Definition fire : M unit :=
  fun s =>
    match timers s with
    | [] => mkOut s [] (Ret tt)
    | (due, t) :: q => callback t (with_clock (Nat.max (now s) due) q s)
    end.

(** [n] timers fire, one after the other; an exception escaping a callback
    ends that callback only. *)
Fixpoint fire_n (n : nat) : M unit :=
  match n with
  | O => ret tt
  | S n' => (TRY fire CATCH _e => ret tt) ;; fire_n n'
  end.

(** The page calls [initializeCalculator(zLatex)] and then lets [n] timers
    fire; an exception escaping [initializeCalculator] ends the calling
    script, not the page. *)
Definition session (z : string) (n : nat) : Out unit :=
  ((TRY init CATCH _e => ret tt) ;; fire_n n) (new_manager "calculator" z).

(** ** Operations on the manager *)

(** What can act on a manager once it is constructed: a call of one of its
    methods, or the page letting the next timer fire.  ([getStatus] only
    reads.) *)
Inductive Method : Type :=
  | MInit
  | MApplySettings
  | MApplySettingsIndividually
  | MLogSettingsStatus
  | MAddExpressions
  | MAddCoreExpressions
  | MAddUnitDefinitions
  | MTimer.

Definition perform (m : Method) : M unit :=
  match m with
  | MInit => init
  | MApplySettings => applySettings
  | MApplySettingsIndividually => applySettingsIndividually
  | MLogSettingsStatus => logSettingsStatus
  | MAddExpressions => addExpressions
  | MAddCoreExpressions => addCoreExpressions
  | MAddUnitDefinitions => addUnitDefinitions
  | MTimer => fire
  end.

(** The state after a sequence of operations, whether they return or throw. *)
Definition perform_all (ms : list Method) (s : State) : State :=
  fold_left (fun s' m => st (perform m s')) ms s.

(** An action keeps the relation [P] when [P] relates every state to the
    state the action leaves. *)
Definition keeps {A : Type} (P : State -> State -> Prop) (m : M A) : Prop :=
  forall s : State, P s (st (m s)).

(** The flags only go from [false] to [true]. *)
Definition flags_grow (s s' : State) : Prop :=
  (isReady s = true -> isReady s' = true)
  /\ (isFullyReady s = true -> isFullyReady s' = true).

(** The fully-ready flag is left as it was. *)
Definition fully_untouched (s s' : State) : Prop :=
  isFullyReady s' = isFullyReady s.

(** The settings-ready flag and the timer queue are left as they were. *)
Definition ready_untouched (s s' : State) : Prop :=
  isReady s' = isReady s /\ timers s' = timers s.

(** Only the expression callback is pending, any number of times. *)
Definition only_expressions_pending (s : State) : Prop :=
  Forall (fun p => snd p = TAddExpressions) (timers s).

(** Everything in the state but the formula string. *)
Definition public (s : State)
  : string * option Widget * bool * bool * obj * nat * list (nat * Task) :=
  (elementId s, calculator s, isReady s, isFullyReady s, window s, now s, timers s).

(** An action is blind to the formula string when, from two states that
    differ in it at most, it leaves two such states, the same events and the
    same completion. *)
Definition blind {A : Type} (m : M A) : Prop :=
  forall s1 s2 : State,
    public s1 = public s2 ->
    public (st (m s1)) = public (st (m s2))
    /\ evs (m s1) = evs (m s2)
    /\ res (m s1) = res (m s2).

(** ** States the callbacks lead to *)

(** The state once [isReady] and [window.calculatorReady] are set. *)
Definition settings_ready (s : State) : State :=
  with_window (set "calculatorReady" (VBool true) (window s))
              (with_isReady true s).

(** The state once [isFullyReady] and [window.calculatorFullyReady] are set. *)
Definition fully_ready (s : State) : State :=
  with_window (set "calculatorFullyReady" (VBool true) (window s))
              (with_isFullyReady true s).

(** The state once task [t] is registered with [delay]. *)
Definition scheduled (t : Task) (delay : nat) (s : State) : State :=
  with_clock (now s) (enqueue (now s + delay) t (timers s)) s.

End Manager.

Arguments mkOut {X A} st evs res.
Arguments st {X A} o.
Arguments evs {X A} o.
Arguments res {X A} o.

Notation "x <- m ;; k" := (bind m (fun x => k))
  (at level 61, m at next level, right associativity).
Notation "m ;; k" := (bind m (fun _ => k))
  (at level 61, right associativity).
Notation "'TRY' m 'CATCH' e => h" := (try_catch m (fun e => h))
  (at level 60, e name, m at level 61, h at level 61).

(** ** A scripted widget

    A concrete widget for running the script: it keeps the settings, the
    bounds and the expressions it was given and counts the calls made to it;
    [faulty n c] says whether call number [n] (from 0), which is [c], throws.
    A call that throws changes nothing but the count.  The page has one mount
    point, [calculator]. *)
Module Scripted.

Record W : Type := mkW {
  applied : obj;
  view : option Bounds;
  exprs : list Expression;
  ncalls : nat
}.

Definition fresh : W :=
  {| applied := [ ("degreeMode", VBool false);
                  ("xAxisScale", VStr "linear");
                  ("yAxisScale", VStr "linear") ];
     view := None;
     exprs := [];
     ncalls := 0 |}.

Definition merge (o : obj) (into : obj) : obj :=
  fold_left (fun acc kv => set (fst kv) (snd kv) acc) o into.

Definition perform (c : Call) (w : W) : W :=
  match c with
  | CUpdateSettings o => mkW (merge o (applied w)) (view w) (exprs w) (S (ncalls w))
  | CSetMathBounds b => mkW (applied w) (Some b) (exprs w) (S (ncalls w))
  | CSetExpression e => mkW (applied w) (view w) (exprs w ++ [e]) (S (ncalls w))
  end.

Definition method (faulty : nat -> Call -> bool) (c : Call) (w : W)
  : W * result unit :=
  if faulty (ncalls w) c
  then (mkW (applied w) (view w) (exprs w) (S (ncalls w)), Throw (VError "widget"))
  else (perform c w, Ret tt).

Definition external (faulty : nat -> Call -> bool) : External :=
  {| Element := unit;
     Widget := W;
     getElementById := fun i => if String.eqb i "calculator" then Some tt else None;
     GraphingCalculator := fun _ _ => Ret fresh;
     updateSettings := fun o => method faulty (CUpdateSettings o);
     setMathBounds := fun b => method faulty (CSetMathBounds b);
     setExpression := fun e => method faulty (CSetExpression e);
     settings := fun w => Some (applied w) |}.

(** Fault scripts. *)
Definition never : nat -> Call -> bool := fun _ _ => false.

Definition nth_call (k : nat) : nat -> Call -> bool := fun n _ => Nat.eqb n k.

Definition every_setMathBounds : nat -> Call -> bool :=
  fun _ c => match c with CSetMathBounds _ => true | _ => false end.

(** The manager once [initializeCalculator] has returned, and once the
    settings callback has run after that. *)
Definition after_init (faulty : nat -> Call -> bool) : @State (external faulty) :=
  st (initializeCalculator (X := external faulty) "Z").

Definition after_settings (faulty : nat -> Call -> bool) : @State (external faulty) :=
  st (session (X := external faulty) "Z" 1).

End Scripted.

(** ** Reading an event list *)

(** The widget calls, with how each ended. *)
Definition calls (l : list Event) : list (Call * result unit) :=
  flat_map (fun ev => match ev with ECall c r => [(c, r)] | _ => [] end) l.

(** The expressions [setExpression] was called with, whatever the outcome. *)
Definition attempted (l : list Event) : list Expression :=
  flat_map (fun ev =>
    match ev with ECall (CSetExpression e) _ => [e] | _ => [] end) l.

(** The expressions for which [setExpression] returned. *)
Definition registered (l : list Event) : list Expression :=
  flat_map (fun ev =>
    match ev with ECall (CSetExpression e) (Ret _) => [e] | _ => [] end) l.

(** A [setExpression] call that threw. *)
Definition registration_threw (ev : Event) : bool :=
  match ev with ECall (CSetExpression _) (Throw _) => true | _ => false end.

(** The [setMathBounds] calls, with how each ended. *)
Definition bounds_calls (l : list Event) : list (Bounds * result unit) :=
  flat_map (fun ev =>
    match ev with ECall (CSetMathBounds b) r => [(b, r)] | _ => [] end) l.

(** The timers registered. *)
Definition timeouts (l : list Event) : list (Task * nat) :=
  flat_map (fun ev => match ev with ETimeout t d => [(t, d)] | _ => [] end) l.

Definition no_registration_threw (l : list Event) : bool :=
  forallb (fun ev => negb (registration_threw ev)) l.

Definition is_console (ev : Event) : bool :=
  match ev with EConsole _ _ => true | _ => false end.

(** What one round of the unit loop leaves in the event list: the call, then
    the line for its outcome. *)
Definition unit_events (index : nat) (u : Expression) (r : result unit)
  : list Event :=
  match r with
  | Ret _ =>
      [ ECall (CSetExpression u) (Ret tt);
        EConsole Log
          [VStr ("Unit " ++ string_of_nat (index + 1) ++ " added successfully")] ]
  | Throw e =>
      [ ECall (CSetExpression u) (Throw e);
        EConsole Error
          [VStr ("Unit " ++ string_of_nat (index + 1) ++ " failed:"); e] ]
  end.

(** The rounds for the units [l], numbered from [i], with outcomes [rs]. *)
Fixpoint unit_trace (i : nat) (l : list Expression) (rs : list (result unit))
  : list Event :=
  match l, rs with
  | u :: l', r :: rs' => unit_events i u r ++ unit_trace (S i) l' rs'
  | _, _ => []
  end.

(** The event of a [setExpression] call that returned. *)
Definition registered_ok (e : Expression) : Event :=
  ECall (CSetExpression e) (Ret tt).

(** What one round of [applySettingsIndividually] leaves in the event list. *)
Definition setting_events (setting : obj) (name : string) (r : result unit)
  : list Event :=
  match r with
  | Ret _ =>
      [ ECall (CUpdateSettings setting) (Ret tt);
        EConsole Log [VStr (name ++ " applied successfully")] ]
  | Throw e =>
      [ ECall (CUpdateSettings setting) (Throw e);
        EConsole Error [VStr (name ++ " failed:"); e] ]
  end.

(** What the bounds step of [applySettingsIndividually] leaves. *)
Definition bounds_events (r : result unit) : list Event :=
  match r with
  | Ret _ =>
      [ ECall (CSetMathBounds DEFAULT_BOUNDS) (Ret tt);
        EConsole Log [VStr "Math bounds applied successfully"] ]
  | Throw e =>
      [ ECall (CSetMathBounds DEFAULT_BOUNDS) (Throw e);
        EConsole Error [VStr "Math bounds failed:"; e] ]
  end.

(** The lines of [logSettingsStatus] for the settings snapshot [o]. *)
Definition status_lines (o : obj) : list Event :=
  [ EConsole Log [VStr "Settings applied successfully!"];
    EConsole Log [VStr "Degree Mode:"; get "degreeMode" o];
    EConsole Log [VStr "X Axis Scale:"; get "xAxisScale" o];
    EConsole Log [VStr "Y Axis Scale:"; get "yAxisScale" o];
    EConsole Log
      [VStr ("Math bounds should now be: " ++ bounds_text DEFAULT_BOUNDS)] ].

(** The events of the [try] block of the settings phase when nothing throws
    and the settings snapshot is [o]. *)
Definition settings_success_events (o : obj) : list Event :=
  [ ECall (CUpdateSettings DEFAULT_SETTINGS) (Ret tt);
    ECall (CSetMathBounds DEFAULT_BOUNDS) (Ret tt);
    EConsole Log
      [VStr ("setMathBounds called with bounds: " ++ bounds_text DEFAULT_BOUNDS)] ]
  ++ status_lines o
  ++ [EGlobal "calculatorReady" (VBool true)].

(** ** Further widgets and readings of a run *)

Module Variants.

(** A page on which the Desmos library fails to construct the widget. *)
Definition no_library : External :=
  {| Element := unit;
     Widget := Scripted.W;
     getElementById := fun i => if String.eqb i "calculator" then Some tt else None;
     GraphingCalculator := fun _ _ => Throw (VError "Desmos");
     updateSettings := fun o => Scripted.method Scripted.never (CUpdateSettings o);
     setMathBounds := fun b => Scripted.method Scripted.never (CSetMathBounds b);
     setExpression := fun e => Scripted.method Scripted.never (CSetExpression e);
     settings := fun w => Some (Scripted.applied w) |}.

(** A widget on which nothing throws but whose [settings] property is
    [undefined]. *)
Definition no_snapshot : External :=
  {| Element := unit;
     Widget := Scripted.W;
     getElementById := fun i => if String.eqb i "calculator" then Some tt else None;
     GraphingCalculator := fun _ _ => Ret Scripted.fresh;
     updateSettings := fun o => Scripted.method Scripted.never (CUpdateSettings o);
     setMathBounds := fun b => Scripted.method Scripted.never (CSetMathBounds b);
     setExpression := fun e => Scripted.method Scripted.never (CSetExpression e);
     settings := fun _ => None |}.

(** Every call from number [k] on throws. *)
Definition from_call (k : nat) : nat -> Call -> bool := fun n _ => Nat.leb k n.

End Variants.

(** The console lines, with their level. *)
Definition console_lines (l : list Event) : list (Level * list value) :=
  flat_map (fun ev => match ev with EConsole lv a => [(lv, a)] | _ => [] end) l.

(** The globals written, with the value. *)
Definition globals_written (l : list Event) : list (string * value) :=
  flat_map (fun ev => match ev with EGlobal n v => [(n, v)] | _ => [] end) l.

(** The widget constructions, with the configuration passed. *)
Definition constructions (l : list Event) : list (obj * result unit) :=
  flat_map (fun ev => match ev with EConstruct _ c r => [(c, r)] | _ => [] end) l.

(** No [console.error] line. *)
Definition no_error_line (l : list Event) : bool :=
  forallb (fun ev => match ev with EConsole Error _ => false | _ => true end) l.

(** The lines the unit loop writes for the units [l], numbered from [i],
    when [this.calculator] is [null]. *)
Fixpoint unit_failures (i : nat) (l : list Expression) : list Event :=
  match l with
  | [] => []
  | _ :: l' =>
      EConsole Error [VStr ("Unit " ++ string_of_nat (i + 1) ++ " failed:"); VTypeError]
      :: unit_failures (S i) l'
  end.

(** The widget calls the script has in its text. *)
Definition fixed_call (c : Call) : Prop :=
  match c with
  | CUpdateSettings o =>
      o = DEFAULT_SETTINGS \/ In o (map fst settingsToTry)
  | CSetMathBounds b => b = DEFAULT_BOUNDS
  | CSetExpression e => In e (coreExpressions ++ UNIT_DEFINITIONS)%list
  end.

(** The events the script has in its text; console lines apart, which carry
    values read from the widget and thrown values. *)
Definition fixed_event (ev : Event) : Prop :=
  match ev with
  | EConsole _ _ => True
  | EConstruct _ config _ => config = CALCULATOR_CONFIG
  | ECall c _ => fixed_call c
  | EGlobal name v =>
      (name, v) = ("desmosCalc", VHandle)
      \/ (name, v) = ("calculatorReady", VBool true)
      \/ (name, v) = ("calculatorFullyReady", VBool true)
  | ETimeout t delay =>
      (t, delay) = (TApplySettings, 500) \/ (t, delay) = (TAddExpressions, 200)
  end.

(** Every event of the action satisfies [Q]. *)
Definition emits {X : External} {A : Type} (Q : Event -> Prop) (m : M A) : Prop :=
  forall s : State, Forall Q (evs (m s)).



(** * Properties *)

Section Properties.

Context {X : External}.

Local Open Scope list_scope.

(** ** Equations of the monad *)

Lemma bind_Ret {A B : Type} (m : M A) (k : A -> M B) (s : State) (a : A) :
  res (m s) = Ret a ->
  bind m k s = mkOut (st (k a (st (m s))))
                     (evs (m s) ++ evs (k a (st (m s))))
                     (res (k a (st (m s)))).
Proof. intros E. unfold bind. rewrite E. reflexivity. Qed.

Lemma bind_Throw {A B : Type} (m : M A) (k : A -> M B) (s : State) (e : value) :
  res (m s) = Throw e ->
  bind m k s = mkOut (st (m s)) (evs (m s)) (Throw e).
Proof. intros E. unfold bind. rewrite E. reflexivity. Qed.

Lemma try_Ret (m : M unit) (h : value -> M unit) (s : State) :
  res (m s) = Ret tt -> try_catch m h s = m s.
Proof. intros E. unfold try_catch. rewrite E. reflexivity. Qed.

Lemma try_Throw (m : M unit) (h : value -> M unit) (s : State) (e : value) :
  res (m s) = Throw e ->
  try_catch m h s = mkOut (st (h e (st (m s))))
                          (evs (m s) ++ evs (h e (st (m s))))
                          (res (h e (st (m s)))).
Proof. intros E. unfold try_catch. rewrite E. reflexivity. Qed.

Lemma with_calculator_same (s : State) (w : Widget) :
  calculator s = Some w -> with_calculator (Some w) s = s.
Proof. destruct s; simpl; intros ->; reflexivity. Qed.

Lemma with_calculator_twice (c c' : option Widget) (s : State) :
  with_calculator c (with_calculator c' s) = with_calculator c s.
Proof. reflexivity. Qed.

Lemma get_set_same (k : string) (v : value) (o : obj) :
  get k (set k v o) = v.
Proof.
  induction o as [|[k' v'] o IH]; simpl.
  - now rewrite String.eqb_refl.
  - destruct (String.eqb k k') eqn:E; simpl; rewrite ?String.eqb_refl, ?E; auto.
Qed.

(** ** The unit loop *)

Lemma add_unit_eq (u : Expression) (i : nat) (s : State) (w : Widget) :
  calculator s = Some w ->
  add_unit u i s =
    mkOut (with_calculator (Some (fst (setExpression u w))) s)
          (unit_events i u (snd (setExpression u w)))
          (Ret tt).
Proof.
  intros E. unfold add_unit, try_catch, bind, widget_call, console_log,
    console_error, emit. rewrite E. simpl.
  destruct (setExpression u w) as [w' [[]|e]]; reflexivity.
Qed.

Lemma unit_loop_eq (l : list Expression) :
  forall (i : nat) (s : State) (w : Widget),
    calculator s = Some w ->
    exists (w' : Widget) (rs : list (result unit)),
      forEach_from i l add_unit s =
        mkOut (with_calculator (Some w') s) (unit_trace i l rs) (Ret tt)
      /\ length rs = length l.
Proof.
  induction l as [|u l IH]; intros i s w E.
  - exists w, []. simpl. unfold ret.
    now rewrite (with_calculator_same s w E).
  - simpl forEach_from.
    pose proof (add_unit_eq u i s w E) as Hu.
    destruct (IH (S i) (with_calculator (Some (fst (setExpression u w))) s)
                 (fst (setExpression u w)) eq_refl) as (w' & rs & Hl & Hn).
    exists w', (snd (setExpression u w) :: rs). split.
    + rewrite (bind_Ret _ _ s tt) by (rewrite Hu; reflexivity).
      rewrite Hu. simpl st. rewrite Hl. reflexivity.
    + simpl. now rewrite Hn.
Qed.

Lemma attempted_unit_trace (l : list Expression) :
  forall (i : nat) (rs : list (result unit)),
    length rs = length l -> attempted (unit_trace i l rs) = l.
Proof.
  induction l as [|u l IH]; intros i [|r rs] Hn; try discriminate; auto.
  simpl unit_trace. unfold attempted in *. rewrite flat_map_app.
  rewrite IH by (simpl in Hn; lia).
  destruct r as [[]|e]; reflexivity.
Qed.

(** C7.  The unit loop never stops early: with a widget in place, whichever
    of the [setExpression] calls throw, [addUnitDefinitions] returns
    normally and has called [setExpression] once for each of the eight unit
    definitions, in the declared order. *)
Theorem unit_loop_attempts_all (s : State) (w : Widget) :
  calculator s = Some w ->
  res (addUnitDefinitions s) = Ret tt
  /\ attempted (evs (addUnitDefinitions s)) = UNIT_DEFINITIONS
  /\ length (attempted (evs (addUnitDefinitions s))) = 8.
Proof.
  intros E.
  destruct (unit_loop_eq UNIT_DEFINITIONS 0 s w E) as (w' & rs & Hl & Hn).
  unfold addUnitDefinitions, forEach. rewrite Hl. cbn [res evs].
  rewrite (attempted_unit_trace _ _ _ Hn). auto.
Qed.

(** ** The core batch *)

Lemma add_core_eq (e : Expression) (i : nat) (s : State) (w : Widget) :
  calculator s = Some w ->
  add_core e i s =
    mkOut (with_calculator (Some (fst (setExpression e w))) s)
          [ECall (CSetExpression e) (snd (setExpression e w))]
          (snd (setExpression e w)).
Proof.
  intros E. unfold add_core, widget_call. rewrite E. simpl.
  destruct (setExpression e w); reflexivity.
Qed.

(** The batch either goes through the whole list, or stops at the first
    call that throws and throws what that call threw. *)
Lemma core_loop_eq (l : list Expression) :
  forall (i : nat) (s : State) (w : Widget),
    calculator s = Some w ->
    exists w' : Widget,
      forEach_from i l add_core s =
        mkOut (with_calculator (Some w') s) (map registered_ok l) (Ret tt)
      \/ exists (l1 : list Expression) (e : Expression)
                (l2 : list Expression) (x : value),
           l = l1 ++ e :: l2
           /\ forEach_from i l add_core s =
                mkOut (with_calculator (Some w') s)
                      (map registered_ok l1 ++ [ECall (CSetExpression e) (Throw x)])
                      (Throw x).
Proof.
  induction l as [|e l IH]; intros i s w E.
  - exists w. left. simpl. unfold ret.
    now rewrite (with_calculator_same s w E).
  - simpl forEach_from.
    pose proof (add_core_eq e i s w E) as He.
    destruct (setExpression e w) as [w1 [[]|x]] eqn:Ew; cbn [fst snd] in He.
    + destruct (IH (S i) (with_calculator (Some w1) s) w1 eq_refl)
        as (w' & [Hl | (l1 & e' & l2 & x & Hs & Hl)]).
      * exists w'. left.
        rewrite (bind_Ret _ _ s tt) by (rewrite He; reflexivity).
        rewrite He. cbn [st evs]. rewrite Hl. reflexivity.
      * exists w'. right. exists (e :: l1), e', l2, x. split.
        { now rewrite Hs. }
        rewrite (bind_Ret _ _ s tt) by (rewrite He; reflexivity).
        rewrite He. cbn [st evs]. rewrite Hl. reflexivity.
    + exists w1. right. exists [], e, l, x. split; [reflexivity|].
      rewrite (bind_Throw _ _ s x) by (rewrite He; reflexivity).
      rewrite He. reflexivity.
Qed.

(** ** The expression phase *)

(** Rewriting one step of a sequence whose first action is known. *)
Ltac step H :=
  first [ rewrite (bind_Ret _ _ _ tt) by (rewrite H; reflexivity)
        | rewrite (bind_Throw _ _ _ _) by (rewrite H; reflexivity)
        | rewrite (try_Ret _ _ _) by (rewrite H; reflexivity)
        | rewrite (try_Throw _ _ _ _) by (rewrite H; reflexivity) ];
  rewrite ?H; cbn [st evs res].

(** The [try] block with a widget in place: every core call returned and the
    eight unit rounds ran, or a core call threw. *)
Lemma addExpressions_try_eq (s : State) (w : Widget) :
  calculator s = Some w ->
  exists w' : Widget,
    (exists rs : list (result unit),
       length rs = length UNIT_DEFINITIONS
       /\ res (addCoreExpressions s) = Ret tt
       /\ addExpressions_try s =
            mkOut (fully_ready (with_calculator (Some w') s))
                  (map registered_ok coreExpressions
                   ++ unit_trace 0 UNIT_DEFINITIONS rs
                   ++ [ EConsole Log [VStr "All expressions added successfully!"];
                        EGlobal "calculatorFullyReady" (VBool true) ])
                  (Ret tt))
    \/ (exists (l1 : list Expression) (e : Expression)
               (l2 : list Expression) (x : value),
          coreExpressions = l1 ++ e :: l2
          /\ res (addCoreExpressions s) = Throw x
          /\ addExpressions_try s =
               mkOut (with_calculator (Some w') s)
                     (map registered_ok l1 ++ [ECall (CSetExpression e) (Throw x)])
                     (Throw x)).
Proof.
  intros E.
  destruct (core_loop_eq coreExpressions 0 s w E)
    as (w1 & [Hc | (l1 & e & l2 & x & Hs & Hc)]).
  - destruct (unit_loop_eq UNIT_DEFINITIONS 0 (with_calculator (Some w1) s) w1 eq_refl)
      as (w2 & rs & Hu & Hn).
    exists w2. left. exists rs. split; [exact Hn|].
    unfold addExpressions_try, addCoreExpressions, addUnitDefinitions, forEach.
    split; [now rewrite Hc|].
    step Hc. step Hu. reflexivity.
  - exists w1. right. exists l1, e, l2, x. split; [exact Hs|].
    unfold addExpressions_try, addCoreExpressions, forEach.
    split; [now rewrite Hc|].
    step Hc. reflexivity.
Qed.

(** With a widget in place the phase ends in one of two ways: every core
    call returned, the eight unit rounds ran and the flag is set; or a core
    call threw, which is logged, and nothing else happened. *)
Lemma addExpressions_callback_eq (s : State) (w : Widget) :
  calculator s = Some w ->
  exists w' : Widget,
    (exists rs : list (result unit),
       length rs = length UNIT_DEFINITIONS
       /\ res (addCoreExpressions s) = Ret tt
       /\ addExpressions_callback s =
            mkOut (fully_ready (with_calculator (Some w') s))
                  (EConsole Log [VStr "Adding expressions..."]
                   :: map registered_ok coreExpressions
                   ++ unit_trace 0 UNIT_DEFINITIONS rs
                   ++ [ EConsole Log [VStr "All expressions added successfully!"];
                        EGlobal "calculatorFullyReady" (VBool true) ])
                  (Ret tt))
    \/ (exists (l1 : list Expression) (e : Expression)
               (l2 : list Expression) (x : value),
          coreExpressions = l1 ++ e :: l2
          /\ res (addCoreExpressions s) = Throw x
          /\ addExpressions_callback s =
               mkOut (with_calculator (Some w') s)
                     (EConsole Log [VStr "Adding expressions..."]
                      :: map registered_ok l1
                      ++ [ ECall (CSetExpression e) (Throw x);
                           EConsole Error [VStr "Error adding expressions:"; x] ])
                     (Ret tt)).
Proof.
  intros E.
  destruct (addExpressions_try_eq s w E)
    as (w' & [(rs & Hn & Hr & Ht) | (l1 & e & l2 & x & Hs & Hr & Ht)]); exists w'.
  - left. exists rs. split; [exact Hn|]. split; [exact Hr|].
    unfold addExpressions_callback.
    rewrite (bind_Ret _ _ s tt) by reflexivity.
    cbn [console_log emit st evs res]. step Ht. reflexivity.
  - right. exists l1, e, l2, x. split; [exact Hs|]. split; [exact Hr|].
    unfold addExpressions_callback.
    rewrite (bind_Ret _ _ s tt) by reflexivity.
    cbn [console_log emit st evs res]. step Ht.
    cbn [console_error emit st evs res app]. now rewrite <- app_assoc.
Qed.

Lemma registered_ok_all (l : list Expression) :
  registered (map registered_ok l) = l.
Proof. induction l as [|e l IH]; simpl; congruence. Qed.

Lemma attempted_ok_all (l : list Expression) :
  attempted (map registered_ok l) = l.
Proof. induction l as [|e l IH]; simpl; congruence. Qed.

Lemma registered_app (a b : list Event) :
  registered (a ++ b) = registered a ++ registered b.
Proof. apply flat_map_app. Qed.

Lemma registered_cons (ev : Event) (l : list Event) :
  registered (ev :: l) = registered [ev] ++ registered l.
Proof. unfold registered. simpl. now rewrite app_nil_r. Qed.

Lemma attempted_app (a b : list Event) :
  attempted (a ++ b) = attempted a ++ attempted b.
Proof. apply flat_map_app. Qed.

Lemma no_registration_threw_app (a b : list Event) :
  no_registration_threw (a ++ b)
  = no_registration_threw a && no_registration_threw b.
Proof. apply forallb_app. Qed.

Lemma no_registration_threw_cons (ev : Event) (l : list Event) :
  no_registration_threw (ev :: l)
  = negb (registration_threw ev) && no_registration_threw l.
Proof. reflexivity. Qed.

Lemma registered_unit_trace (l : list Expression) :
  forall (i : nat) (rs : list (result unit)),
    length rs = length l ->
    no_registration_threw (unit_trace i l rs) = true ->
    registered (unit_trace i l rs) = l.
Proof.
  induction l as [|u l IH]; intros i [|r rs] Hn Hok; try discriminate; auto.
  destruct r as [[]|e]; [|discriminate].
  simpl in Hok |- *. f_equal. apply IH; [simpl in Hn; lia | exact Hok].
Qed.


(** C1.  When the expression phase runs with a widget in place and no
    [setExpression] call throws, the expressions registered are the six core
    expressions followed by the eight unit definitions, each list in its
    declared order, and the fully-ready flag and [window.calculatorFullyReady]
    are true. *)
Theorem expression_phase_registers_all (s : State) (w : Widget) :
  calculator s = Some w ->
  no_registration_threw (evs (addExpressions_callback s)) = true ->
  registered (evs (addExpressions_callback s)) = coreExpressions ++ UNIT_DEFINITIONS
  /\ length coreExpressions = 6
  /\ length UNIT_DEFINITIONS = 8
  /\ res (addExpressions_callback s) = Ret tt
  /\ isFullyReady (st (addExpressions_callback s)) = true
  /\ get "calculatorFullyReady" (window (st (addExpressions_callback s))) = VBool true.
Proof.
  intros E Hok.
  destruct (addExpressions_callback_eq s w E)
    as (w' & [(rs & Hn & _ & Hcb) | (l1 & e & l2 & x & _ & _ & Hcb)]);
    rewrite Hcb in Hok |- *; cbn [st evs res] in *.
  - rewrite no_registration_threw_cons, !no_registration_threw_app in Hok.
    apply andb_prop in Hok as [_ Hok]. apply andb_prop in Hok as [_ Hok].
    apply andb_prop in Hok as [Hok _].
    rewrite registered_cons, !registered_app, registered_ok_all,
      (registered_unit_trace _ _ _ Hn Hok).
    cbn [registered flat_map app]. rewrite app_nil_r.
    repeat split. apply get_set_same.
  - exfalso.
    rewrite no_registration_threw_cons, no_registration_threw_app in Hok.
    apply andb_prop in Hok as [_ Hok]. apply andb_prop in Hok as [_ Hok].
    discriminate Hok.
Qed.


(** ** The settings phase *)

Lemma widget_call_eq (c : Call) (s : State) (w : Widget) :
  calculator s = Some w ->
  widget_call c s =
    mkOut (with_calculator (Some (fst (invoke c w))) s)
          [ECall c (snd (invoke c w))]
          (snd (invoke c w)).
Proof.
  intros E. unfold widget_call. rewrite E. now destruct (invoke c w).
Qed.

Lemma widget_call_null (c : Call) (s : State) :
  calculator s = None -> widget_call c s = mkOut s [] (Throw VTypeError).
Proof. intros E. unfold widget_call. now rewrite E. Qed.

Lemma try_setting_eq (setting : obj) (name : string) (i : nat)
    (s : State) (w : Widget) :
  calculator s = Some w ->
  try_setting (setting, name) i s =
    mkOut (with_calculator (Some (fst (updateSettings setting w))) s)
          (setting_events setting name (snd (updateSettings setting w)))
          (Ret tt).
Proof.
  intros E. unfold try_setting.
  pose proof (widget_call_eq (CUpdateSettings setting) s w E) as Hc.
  cbn [invoke] in Hc.
  destruct (updateSettings setting w) as [w1 [[]|e]]; cbn [fst snd] in *.
  - rewrite try_Ret; step Hc; reflexivity.
  - rewrite (try_Throw _ _ _ e); step Hc; reflexivity.
Qed.

Lemma try_setting_null (setting : obj) (name : string) (i : nat) (s : State) :
  calculator s = None ->
  try_setting (setting, name) i s =
    mkOut s [EConsole Error [VStr (name ++ " failed:")%string; VTypeError]] (Ret tt).
Proof.
  intros E. unfold try_setting.
  pose proof (widget_call_null (CUpdateSettings setting) s E) as Hc.
  rewrite (try_Throw _ _ _ VTypeError); step Hc; reflexivity.
Qed.

(** The bounds step of the individual path. *)
Lemma bounds_step_eq (s : State) (w : Widget) :
  calculator s = Some w ->
  (TRY
     widget_call (CSetMathBounds DEFAULT_BOUNDS) ;;
     console_log [VStr "Math bounds applied successfully"]
   CATCH e =>
     console_error [VStr "Math bounds failed:"; e]) s =
    mkOut (with_calculator (Some (fst (setMathBounds DEFAULT_BOUNDS w))) s)
          (bounds_events (snd (setMathBounds DEFAULT_BOUNDS w)))
          (Ret tt).
Proof.
  intros E.
  pose proof (widget_call_eq (CSetMathBounds DEFAULT_BOUNDS) s w E) as Hc.
  cbn [invoke] in Hc.
  destruct (setMathBounds DEFAULT_BOUNDS w) as [w1 [[]|e]]; cbn [fst snd] in *.
  - rewrite try_Ret; step Hc; reflexivity.
  - rewrite (try_Throw _ _ _ e); step Hc; reflexivity.
Qed.

Lemma bounds_step_null (s : State) :
  calculator s = None ->
  (TRY
     widget_call (CSetMathBounds DEFAULT_BOUNDS) ;;
     console_log [VStr "Math bounds applied successfully"]
   CATCH e =>
     console_error [VStr "Math bounds failed:"; e]) s =
    mkOut s [EConsole Error [VStr "Math bounds failed:"; VTypeError]] (Ret tt).
Proof.
  intros E.
  pose proof (widget_call_null (CSetMathBounds DEFAULT_BOUNDS) s E) as Hc.
  rewrite (try_Throw _ _ _ VTypeError); step Hc; reflexivity.
Qed.

Lemma try_setting_at (setting : obj) (name : string) (i : nat)
    (s : State) (w : Widget) :
  try_setting (setting, name) i (with_calculator (Some w) s) =
    mkOut (with_calculator (Some (fst (updateSettings setting w))) s)
          (setting_events setting name (snd (updateSettings setting w)))
          (Ret tt).
Proof.
  now rewrite (try_setting_eq setting name i (with_calculator (Some w) s) w eq_refl).
Qed.

Lemma bounds_step_at (s : State) (w : Widget) :
  (TRY
     widget_call (CSetMathBounds DEFAULT_BOUNDS) ;;
     console_log [VStr "Math bounds applied successfully"]
   CATCH e =>
     console_error [VStr "Math bounds failed:"; e]) (with_calculator (Some w) s) =
    mkOut (with_calculator (Some (fst (setMathBounds DEFAULT_BOUNDS w))) s)
          (bounds_events (snd (setMathBounds DEFAULT_BOUNDS w)))
          (Ret tt).
Proof.
  now rewrite (bounds_step_eq (with_calculator (Some w) s) w eq_refl).
Qed.

(** The individual path with a widget in place: three calls, each followed by
    the line for its outcome, and a normal return. *)
Lemma applySettingsIndividually_eq (s : State) (w : Widget) :
  calculator s = Some w ->
  applySettingsIndividually s =
    let u1 := updateSettings [("degreeMode", VBool false)] w in
    let u2 := updateSettings [("xAxisScale", VStr "logarithmic")] (fst u1) in
    let b := setMathBounds DEFAULT_BOUNDS (fst u2) in
    mkOut (with_calculator (Some (fst b)) s)
          (setting_events [("degreeMode", VBool false)] "Degree mode" (snd u1)
           ++ setting_events [("xAxisScale", VStr "logarithmic")]
                "X-axis logarithmic scale" (snd u2)
           ++ bounds_events (snd b))
          (Ret tt).
Proof.
  intros E. cbv zeta.
  unfold applySettingsIndividually, forEach, settingsToTry.
  cbn [forEach_from].
  assert (Hloop :
    (try_setting ([("degreeMode", VBool false)], "Degree mode") 0 ;;
     try_setting ([("xAxisScale", VStr "logarithmic")], "X-axis logarithmic scale") 1 ;;
     ret tt) s =
    mkOut (with_calculator
             (Some (fst (updateSettings [("xAxisScale", VStr "logarithmic")]
                           (fst (updateSettings [("degreeMode", VBool false)] w))))) s)
          (setting_events [("degreeMode", VBool false)] "Degree mode"
             (snd (updateSettings [("degreeMode", VBool false)] w))
           ++ setting_events [("xAxisScale", VStr "logarithmic")]
                "X-axis logarithmic scale"
                (snd (updateSettings [("xAxisScale", VStr "logarithmic")]
                        (fst (updateSettings [("degreeMode", VBool false)] w)))))
          (Ret tt)).
  { rewrite (bind_Ret _ _ s tt)
      by (rewrite (try_setting_eq _ _ _ _ w E); reflexivity).
    rewrite (try_setting_eq _ _ _ _ w E). cbn [st evs res].
    rewrite (bind_Ret _ _ _ tt) by (rewrite try_setting_at; reflexivity).
    rewrite try_setting_at. cbn [st evs res ret].
    now rewrite app_nil_r. }
  step Hloop.
  rewrite bounds_step_at. cbn [st evs res].
  now rewrite <- app_assoc.
Qed.


(** The individual path without a widget: three [TypeError]s, each caught
    and logged. *)
Lemma applySettingsIndividually_null (s : State) :
  calculator s = None ->
  applySettingsIndividually s =
    mkOut s
          [ EConsole Error [VStr "Degree mode failed:"; VTypeError];
            EConsole Error [VStr "X-axis logarithmic scale failed:"; VTypeError];
            EConsole Error [VStr "Math bounds failed:"; VTypeError] ]
          (Ret tt).
Proof.
  intros E.
  unfold applySettingsIndividually, forEach, settingsToTry.
  cbn [forEach_from].
  rewrite (bind_Ret _ _ s tt).
  - rewrite (bind_Ret _ _ s tt)
      by (rewrite (try_setting_null _ _ _ _ E); reflexivity).
    rewrite (try_setting_null _ _ _ _ E). cbn [st evs res].
    rewrite (bind_Ret _ _ s tt)
      by (rewrite (try_setting_null _ _ _ _ E); reflexivity).
    rewrite (try_setting_null _ _ _ _ E). cbn [st evs res ret].
    rewrite (bounds_step_null _ E). reflexivity.
  - rewrite (bind_Ret _ _ s tt)
      by (rewrite (try_setting_null _ _ _ _ E); reflexivity).
    rewrite (try_setting_null _ _ _ _ E). cbn [st evs res].
    rewrite (bind_Ret _ _ s tt)
      by (rewrite (try_setting_null _ _ _ _ E); reflexivity).
    rewrite (try_setting_null _ _ _ _ E). reflexivity.
Qed.

Lemma widget_call_at (c : Call) (s : State) (w : Widget) :
  widget_call c (with_calculator (Some w) s) =
    mkOut (with_calculator (Some (fst (invoke c w))) s)
          [ECall c (snd (invoke c w))]
          (snd (invoke c w)).
Proof.
  now rewrite (widget_call_eq c (with_calculator (Some w) s) w eq_refl).
Qed.

Lemma read_setting_at (k : string) (s : State) (w : Widget) (o : obj) :
  settings w = Some o ->
  read_setting k (with_calculator (Some w) s) =
    mkOut (with_calculator (Some w) s) [] (Ret (get k o)).
Proof. intros E. unfold read_setting. cbn [calculator with_calculator]. now rewrite E. Qed.

Lemma read_setting_undefined (k : string) (s : State) (w : Widget) :
  settings w = None ->
  read_setting k (with_calculator (Some w) s) =
    mkOut (with_calculator (Some w) s) [] (Throw VTypeError).
Proof. intros E. unfold read_setting. cbn [calculator with_calculator]. now rewrite E. Qed.

(** One step of a sequence whose first action is a console line or a write. *)
Ltac prim :=
  rewrite (bind_Ret _ _ _ tt) by reflexivity;
  cbn [console_log console_error emit set_isReady set_isFullyReady set_global
       st evs res].

Lemma logSettingsStatus_at (s : State) (w : Widget) (o : obj) :
  settings w = Some o ->
  logSettingsStatus (with_calculator (Some w) s) =
    mkOut (with_calculator (Some w) s) (status_lines o) (Ret tt).
Proof.
  intros E. unfold logSettingsStatus. prim.
  rewrite (bind_Ret _ _ _ (get "degreeMode" o))
    by (rewrite (read_setting_at _ _ _ _ E); reflexivity).
  rewrite (read_setting_at _ _ _ _ E). cbn [st evs res]. prim.
  rewrite (bind_Ret _ _ _ (get "xAxisScale" o))
    by (rewrite (read_setting_at _ _ _ _ E); reflexivity).
  rewrite (read_setting_at _ _ _ _ E). cbn [st evs res]. prim.
  rewrite (bind_Ret _ _ _ (get "yAxisScale" o))
    by (rewrite (read_setting_at _ _ _ _ E); reflexivity).
  rewrite (read_setting_at _ _ _ _ E). cbn [st evs res]. prim.
  reflexivity.
Qed.

Lemma logSettingsStatus_undefined (s : State) (w : Widget) :
  settings w = None ->
  logSettingsStatus (with_calculator (Some w) s) =
    mkOut (with_calculator (Some w) s)
          [EConsole Log [VStr "Settings applied successfully!"]]
          (Throw VTypeError).
Proof.
  intros E. unfold logSettingsStatus. prim.
  rewrite (bind_Throw _ _ _ VTypeError)
    by (rewrite (read_setting_undefined _ _ _ E); reflexivity).
  rewrite (read_setting_undefined _ _ _ E). reflexivity.
Qed.


(** The [try] block with a widget in place. *)
Lemma applySettings_try_eq (s : State) (w : Widget) :
  calculator s = Some w ->
  applySettings_try s =
    let u := updateSettings DEFAULT_SETTINGS w in
    let b := setMathBounds DEFAULT_BOUNDS (fst u) in
    match snd u with
    | Throw e =>
        mkOut (with_calculator (Some (fst u)) s)
              [ECall (CUpdateSettings DEFAULT_SETTINGS) (Throw e)]
              (Throw e)
    | Ret _ =>
        match snd b with
        | Throw e =>
            mkOut (with_calculator (Some (fst b)) s)
                  [ ECall (CUpdateSettings DEFAULT_SETTINGS) (Ret tt);
                    ECall (CSetMathBounds DEFAULT_BOUNDS) (Throw e) ]
                  (Throw e)
        | Ret _ =>
            match settings (fst b) with
            | None =>
                mkOut (with_calculator (Some (fst b)) s)
                      [ ECall (CUpdateSettings DEFAULT_SETTINGS) (Ret tt);
                        ECall (CSetMathBounds DEFAULT_BOUNDS) (Ret tt);
                        EConsole Log
                          [VStr ("setMathBounds called with bounds: "
                                 ++ bounds_text DEFAULT_BOUNDS)];
                        EConsole Log [VStr "Settings applied successfully!"] ]
                      (Throw VTypeError)
            | Some o =>
                mkOut (settings_ready (with_calculator (Some (fst b)) s))
                      (settings_success_events o)
                      (Ret tt)
            end
        end
    end.
Proof.
  intros E. cbv zeta. unfold applySettings_try.
  pose proof (widget_call_eq (CUpdateSettings DEFAULT_SETTINGS) s w E) as H1.
  cbn [invoke] in H1.
  destruct (updateSettings DEFAULT_SETTINGS w) as [w1 [[]|e1]]; cbn [fst snd] in *.
  2:{ step H1. reflexivity. }
  step H1.
  pose proof (widget_call_at (CSetMathBounds DEFAULT_BOUNDS) s w1) as H2.
  cbn [invoke] in H2.
  destruct (setMathBounds DEFAULT_BOUNDS w1) as [w2 [[]|e2]]; cbn [fst snd] in *.
  2:{ step H2. reflexivity. }
  step H2. prim.
  destruct (settings w2) as [o|] eqn:Es.
  - rewrite (bind_Ret _ _ _ tt)
      by (rewrite (logSettingsStatus_at _ _ _ Es); reflexivity).
    rewrite (logSettingsStatus_at _ _ _ Es). cbn [st evs res].
    prim. reflexivity.
  - rewrite (bind_Throw _ _ _ VTypeError)
      by (rewrite (logSettingsStatus_undefined _ _ Es); reflexivity).
    rewrite (logSettingsStatus_undefined _ _ Es). reflexivity.
Qed.

Lemma applySettings_try_null (s : State) :
  calculator s = None ->
  applySettings_try s = mkOut s [] (Throw VTypeError).
Proof.
  intros E. unfold applySettings_try.
  pose proof (widget_call_null (CUpdateSettings DEFAULT_SETTINGS) s E) as H1.
  step H1. reflexivity.
Qed.

(** The [catch] block always returns. *)
Lemma applySettings_catch_eq (error : value) (s : State) :
  (console_error [VStr "Error applying settings:"; error] ;;
   applySettingsIndividually) s =
    mkOut (st (applySettingsIndividually s))
          (EConsole Error [VStr "Error applying settings:"; error]
           :: evs (applySettingsIndividually s))
          (Ret tt).
Proof.
  prim. f_equal.
  destruct (calculator s) as [w|] eqn:E.
  - now rewrite (applySettingsIndividually_eq s w E).
  - now rewrite (applySettingsIndividually_null s E).
Qed.

(** The guarded statement: the [try] block alone when it returns, the [try]
    block up to the throw and then the [catch] block otherwise. *)
Lemma applySettings_guarded_eq (s : State) :
  applySettings_guarded s =
    match res (applySettings_try s) with
    | Ret _ => applySettings_try s
    | Throw e =>
        mkOut (st (applySettingsIndividually (st (applySettings_try s))))
              (evs (applySettings_try s)
               ++ EConsole Error [VStr "Error applying settings:"; e]
                  :: evs (applySettingsIndividually (st (applySettings_try s))))
              (Ret tt)
    end.
Proof.
  unfold applySettings_guarded.
  destruct (res (applySettings_try s)) as [[]|e] eqn:Er.
  - now rewrite try_Ret.
  - rewrite (try_Throw _ _ _ e Er). now rewrite applySettings_catch_eq.
Qed.

Lemma applySettings_guarded_returns (s : State) :
  res (applySettings_guarded s) = Ret tt.
Proof.
  rewrite applySettings_guarded_eq.
  destruct (res (applySettings_try s)) as [[]|e] eqn:Er; [exact Er | reflexivity].
Qed.

(** The whole callback: the opening line, the guarded statement, the timer
    for the expression phase. *)
Lemma applySettings_callback_eq (s : State) :
  applySettings_callback s =
    mkOut (scheduled TAddExpressions 200 (st (applySettings_guarded s)))
          (EConsole Log [VStr "Applying calculator settings..."]
           :: evs (applySettings_guarded s) ++ [ETimeout TAddExpressions 200])
          (Ret tt).
Proof.
  unfold applySettings_callback. prim.
  pose proof (applySettings_guarded_returns s) as Hr.
  rewrite (bind_Ret _ _ s tt Hr). reflexivity.
Qed.


Lemma applySettingsIndividually_at (s : State) (w : Widget) :
  applySettingsIndividually (with_calculator (Some w) s) =
    let u1 := updateSettings [("degreeMode", VBool false)] w in
    let u2 := updateSettings [("xAxisScale", VStr "logarithmic")] (fst u1) in
    let b := setMathBounds DEFAULT_BOUNDS (fst u2) in
    mkOut (with_calculator (Some (fst b)) s)
          (setting_events [("degreeMode", VBool false)] "Degree mode" (snd u1)
           ++ setting_events [("xAxisScale", VStr "logarithmic")]
                "X-axis logarithmic scale" (snd u2)
           ++ bounds_events (snd b))
          (Ret tt).
Proof.
  now rewrite (applySettingsIndividually_eq (with_calculator (Some w) s) w eq_refl).
Qed.

(** ** Reading the events of the settings phase *)

Lemma calls_app (a b : list Event) : calls (a ++ b) = calls a ++ calls b.
Proof. apply flat_map_app. Qed.

Lemma calls_setting_events (o : obj) (name : string) (r : result unit) :
  calls (setting_events o name r) = [(CUpdateSettings o, r)].
Proof. now destruct r as [[]|e]. Qed.

Lemma calls_bounds_events (r : result unit) :
  calls (bounds_events r) = [(CSetMathBounds DEFAULT_BOUNDS, r)].
Proof. now destruct r as [[]|e]. Qed.

Lemma bounds_calls_app (a b : list Event) :
  bounds_calls (a ++ b) = bounds_calls a ++ bounds_calls b.
Proof. apply flat_map_app. Qed.

Lemma bounds_calls_setting_events (o : obj) (name : string) (r : result unit) :
  bounds_calls (setting_events o name r) = [].
Proof. now destruct r as [[]|e]. Qed.

Lemma bounds_calls_bounds_events (r : result unit) :
  bounds_calls (bounds_events r) = [(DEFAULT_BOUNDS, r)].
Proof. now destruct r as [[]|e]. Qed.

Lemma attempted_setting_events (o : obj) (name : string) (r : result unit) :
  attempted (setting_events o name r) = [].
Proof. now destruct r as [[]|e]. Qed.

Lemma attempted_bounds_events (r : result unit) :
  attempted (bounds_events r) = [].
Proof. now destruct r as [[]|e]. Qed.

Lemma timeouts_app (a b : list Event) :
  timeouts (a ++ b) = timeouts a ++ timeouts b.
Proof. apply flat_map_app. Qed.

Lemma timeouts_setting_events (o : obj) (name : string) (r : result unit) :
  timeouts (setting_events o name r) = [].
Proof. now destruct r as [[]|e]. Qed.

Lemma timeouts_bounds_events (r : result unit) :
  timeouts (bounds_events r) = [].
Proof. now destruct r as [[]|e]. Qed.

Lemma calls_console (l : Level) (args : list value) (t : list Event) :
  calls (EConsole l args :: t) = calls t.
Proof. reflexivity. Qed.

Lemma calls_call (c : Call) (r : result unit) (t : list Event) :
  calls (ECall c r :: t) = (c, r) :: calls t.
Proof. reflexivity. Qed.

Lemma calls_timeout (k : Task) (d : nat) (t : list Event) :
  calls (ETimeout k d :: t) = calls t.
Proof. reflexivity. Qed.

Lemma calls_global (n : string) (v : value) (t : list Event) :
  calls (EGlobal n v :: t) = calls t.
Proof. reflexivity. Qed.

Lemma calls_nil : calls [] = [].
Proof. reflexivity. Qed.

Lemma bounds_calls_console (l : Level) (args : list value) (t : list Event) :
  bounds_calls (EConsole l args :: t) = bounds_calls t.
Proof. reflexivity. Qed.

Lemma bounds_calls_update (o : obj) (r : result unit) (t : list Event) :
  bounds_calls (ECall (CUpdateSettings o) r :: t) = bounds_calls t.
Proof. reflexivity. Qed.

Lemma bounds_calls_bounds (b : Bounds) (r : result unit) (t : list Event) :
  bounds_calls (ECall (CSetMathBounds b) r :: t) = (b, r) :: bounds_calls t.
Proof. reflexivity. Qed.

Lemma bounds_calls_timeout (k : Task) (d : nat) (t : list Event) :
  bounds_calls (ETimeout k d :: t) = bounds_calls t.
Proof. reflexivity. Qed.

Lemma bounds_calls_nil : bounds_calls [] = [].
Proof. reflexivity. Qed.

Create Rewrite HintDb events.

#[local] Hint Rewrite calls_app calls_console calls_call calls_timeout
  calls_global calls_nil calls_setting_events calls_bounds_events
  bounds_calls_app bounds_calls_console bounds_calls_update
  bounds_calls_bounds bounds_calls_timeout bounds_calls_nil
  bounds_calls_setting_events bounds_calls_bounds_events : events.

(** C5.  When the batch [updateSettings] call throws, the widget calls of
    the settings phase are that call, then one [updateSettings] call for
    degree mode, one for the x-axis scale and one [setMathBounds] call, and
    no other. *)
Theorem batch_failure_retries_each_setting_once
    (s : State) (w w' : Widget) (e : value) :
  calculator s = Some w ->
  updateSettings DEFAULT_SETTINGS w = (w', Throw e) ->
  exists r1 r2 r3 : result unit,
    calls (evs (applySettings_callback s)) =
      [ (CUpdateSettings DEFAULT_SETTINGS, Throw e);
        (CUpdateSettings [("degreeMode", VBool false)], r1);
        (CUpdateSettings [("xAxisScale", VStr "logarithmic")], r2);
        (CSetMathBounds DEFAULT_BOUNDS, r3) ].
Proof.
  intros E Hu.
  rewrite applySettings_callback_eq, applySettings_guarded_eq,
    (applySettings_try_eq s w E).
  cbv zeta. rewrite Hu. cbn [fst snd st evs res].
  rewrite applySettingsIndividually_at. cbv zeta. cbn [st evs res].
  do 3 eexists. autorewrite with events. reflexivity.
Qed.


Lemma attempted_console (l : Level) (args : list value) (t : list Event) :
  attempted (EConsole l args :: t) = attempted t.
Proof. reflexivity. Qed.

Lemma attempted_update (o : obj) (r : result unit) (t : list Event) :
  attempted (ECall (CUpdateSettings o) r :: t) = attempted t.
Proof. reflexivity. Qed.

Lemma attempted_bounds (b : Bounds) (r : result unit) (t : list Event) :
  attempted (ECall (CSetMathBounds b) r :: t) = attempted t.
Proof. reflexivity. Qed.

Lemma attempted_global (n : string) (v : value) (t : list Event) :
  attempted (EGlobal n v :: t) = attempted t.
Proof. reflexivity. Qed.

Lemma attempted_nil : attempted [] = [].
Proof. reflexivity. Qed.

Lemma timeouts_console (l : Level) (args : list value) (t : list Event) :
  timeouts (EConsole l args :: t) = timeouts t.
Proof. reflexivity. Qed.

Lemma timeouts_call (c : Call) (r : result unit) (t : list Event) :
  timeouts (ECall c r :: t) = timeouts t.
Proof. reflexivity. Qed.

Lemma timeouts_global (n : string) (v : value) (t : list Event) :
  timeouts (EGlobal n v :: t) = timeouts t.
Proof. reflexivity. Qed.

Lemma timeouts_nil : timeouts [] = [].
Proof. reflexivity. Qed.

#[local] Hint Rewrite attempted_app attempted_console attempted_update
  attempted_bounds attempted_global attempted_nil attempted_setting_events
  attempted_bounds_events timeouts_app timeouts_console timeouts_call
  timeouts_global timeouts_nil timeouts_setting_events timeouts_bounds_events
  : events.

Lemma with_calculator_null (s : State) :
  calculator s = None -> with_calculator None s = s.
Proof. destruct s; simpl; intros ->; reflexivity. Qed.

(** What the guarded statement leaves behind: the widget may have changed;
    the flag and the global are set exactly when the [try] block returned;
    no expression was registered and no timer set. *)
Lemma applySettings_guarded_frame (s : State) :
  exists (c : option Widget) (mid : list Event),
    applySettings_guarded s =
      mkOut match res (applySettings_try s) with
            | Ret _ => settings_ready (with_calculator c s)
            | Throw _ => with_calculator c s
            end mid (Ret tt)
    /\ attempted mid = []
    /\ timeouts mid = [].
Proof.
  rewrite applySettings_guarded_eq.
  destruct (calculator s) as [w|] eqn:E.
  - rewrite (applySettings_try_eq s w E). cbv zeta.
    destruct (updateSettings DEFAULT_SETTINGS w) as [w1 [[]|e1]]; cbn [fst snd].
    2:{ cbn [st evs res]. rewrite applySettingsIndividually_at. cbv zeta.
        cbn [st evs res]. eexists _, _. split; [reflexivity|].
        now autorewrite with events. }
    destruct (setMathBounds DEFAULT_BOUNDS w1) as [w2 [[]|e2]]; cbn [fst snd].
    2:{ cbn [st evs res]. rewrite applySettingsIndividually_at. cbv zeta.
        cbn [st evs res]. eexists _, _. split; [reflexivity|].
        now autorewrite with events. }
    destruct (settings w2) as [o|]; cbn [st evs res].
    + eexists _, _. split; [reflexivity|].
      unfold settings_success_events, status_lines.
      now autorewrite with events.
    + rewrite applySettingsIndividually_at. cbv zeta.
      cbn [st evs res]. eexists _, _. split; [reflexivity|].
      now autorewrite with events.
  - rewrite (applySettings_try_null s E). cbn [st evs res].
    rewrite (applySettingsIndividually_null s E). cbn [st evs res].
    exists None. eexists. rewrite (with_calculator_null s E).
    split; [reflexivity|]. now autorewrite with events.
Qed.

(** The timer queue and the fully-ready flag after the settings callback. *)
Lemma settings_phase_timers (s : State) :
  timers (st (applySettings_callback s))
  = enqueue (now s + 200) TAddExpressions (timers s)
  /\ now (st (applySettings_callback s)) = now s.
Proof.
  rewrite applySettings_callback_eq. cbn [st].
  destruct (applySettings_guarded_frame s) as (c & mid & Hg & _ & _).
  rewrite Hg. cbn [st]. now destruct (res (applySettings_try s)).
Qed.

(** [init], with its three outcomes. *)
Lemma init_eq (s : State) :
  init s =
    match getElementById (elementId s) with
    | None =>
        mkOut s
              [ EConsole Log [VStr "Initializing Desmos Calculator..."];
                EConsole Error
                  [VStr ("Element with ID '" ++ elementId s ++ "' not found")%string] ]
              (Ret tt)
    | Some el =>
        match GraphingCalculator el CALCULATOR_CONFIG with
        | Throw e =>
            mkOut s
                  [ EConsole Log [VStr "Initializing Desmos Calculator..."];
                    EConstruct (elementId s) CALCULATOR_CONFIG (Throw e) ]
                  (Throw e)
        | Ret w =>
            mkOut (scheduled TApplySettings 500
                     (with_window (set "desmosCalc" VHandle (window s))
                        (with_calculator (Some w) s)))
                  [ EConsole Log [VStr "Initializing Desmos Calculator..."];
                    EConstruct (elementId s) CALCULATOR_CONFIG (Ret tt);
                    EGlobal "desmosCalc" VHandle;
                    EConsole Log
                      [VStr "Calculator object available as window.desmosCalc for debugging"];
                    ETimeout TApplySettings 500 ]
                  (Ret tt)
        end
    end.
Proof.
  unfold init. prim.
  destruct (getElementById (elementId s)) as [el|]; [|reflexivity].
  unfold bind, construct.
  destruct (GraphingCalculator el CALCULATOR_CONFIG) as [w|e]; reflexivity.
Qed.

(** The events of the settings callback: settings work, then the timer. *)
Lemma settings_phase_events (s : State) :
  exists pre : list Event,
    evs (applySettings_callback s) = pre ++ [ETimeout TAddExpressions 200]
    /\ timeouts pre = []
    /\ attempted pre = [].
Proof.
  rewrite applySettings_callback_eq. cbn [evs].
  destruct (applySettings_guarded_frame s) as (c & mid & Hg & Ha & Ht).
  rewrite Hg. cbn [evs].
  exists (EConsole Log [VStr "Applying calculator settings..."] :: mid).
  split; [reflexivity|]. now autorewrite with events.
Qed.

Lemma evs_try_ignore (m : M unit) (s : State) :
  evs ((TRY m CATCH _e => ret tt) s) = evs (m s).
Proof.
  unfold try_catch. destruct (res (m s)) as [[]|e]; cbn [evs ret]; auto.
  apply app_nil_r.
Qed.

Lemma res_try_ignore (m : M unit) (s : State) :
  res ((TRY m CATCH _e => ret tt) s) = Ret tt.
Proof.
  unfold try_catch. destruct (res (m s)) as [[]|e] eqn:E; cbn [res ret]; auto.
Qed.

Lemma st_try_ignore (m : M unit) (s : State) :
  st ((TRY m CATCH _e => ret tt) s) = st (m s).
Proof.
  unfold try_catch. destruct (res (m s)) as [[]|e]; cbn [st ret]; auto.
Qed.

Lemma fire_head (s : State) (due : nat) (t : Task) (q : list (nat * Task)) :
  timers s = (due, t) :: q ->
  fire s = callback t (with_clock (Nat.max (now s) due) q s).
Proof. intros E. unfold fire. now rewrite E. Qed.

Lemma fire_idle (s : State) : timers s = [] -> fire s = mkOut s [] (Ret tt).
Proof. intros E. unfold fire. now rewrite E. Qed.

(** The events of a session up to the first timer: those of [init], then
    those of that timer's callback. *)
Lemma evs_session_1 (z : string) :
  evs (session z 1)
  = evs (init (new_manager "calculator" z))
    ++ evs (fire (st (init (new_manager "calculator" z)))).
Proof.
  unfold session.
  rewrite (bind_Ret _ _ _ tt (res_try_ignore _ _)). cbn [evs fire_n].
  rewrite (bind_Ret _ _ _ tt (res_try_ignore _ _)). cbn [evs ret].
  now rewrite !evs_try_ignore, st_try_ignore, app_nil_r.
Qed.

(** No expression is registered before the settings callback has run. *)
Lemma no_expression_before_settings (z : string) :
  attempted (evs (session z 1)) = [].
Proof.
  rewrite evs_session_1, attempted_app, init_eq.
  cbn [new_manager DesmosCalculatorManager elementId].
  destruct (getElementById "calculator") as [el|];
    [|cbn [st evs]; now rewrite fire_idle].
  destruct (GraphingCalculator el CALCULATOR_CONFIG) as [w|e];
    [|cbn [st evs]; now rewrite fire_idle].
  cbn [st evs].
  rewrite (fire_head
             (scheduled TApplySettings 500
                (with_window
                   (set "desmosCalc" VHandle (window (new_manager "calculator" z)))
                   (with_calculator (Some w) (new_manager "calculator" z))))
             500 TApplySettings [] eq_refl).
  cbn [callback].
  match goal with |- context [applySettings_callback ?s0] =>
    destruct (settings_phase_events s0) as (pre & -> & _ & Hp)
  end.
  rewrite attempted_app, Hp. reflexivity.
Qed.

(** The widget calls of the settings callback start with the batch
    [updateSettings] call; without a widget there is none. *)
Lemma settings_phase_first_call (s : State) :
  match calculator s with
  | Some w =>
      exists rest : list (Call * result unit),
        calls (evs (applySettings_guarded s))
        = (CUpdateSettings DEFAULT_SETTINGS, snd (updateSettings DEFAULT_SETTINGS w))
          :: rest
  | None => calls (evs (applySettings_guarded s)) = []
  end.
Proof.
  rewrite applySettings_guarded_eq.
  destruct (calculator s) as [w|] eqn:E.
  - rewrite (applySettings_try_eq s w E). cbv zeta.
    destruct (updateSettings DEFAULT_SETTINGS w) as [w1 [[]|e1]]; cbn [fst snd].
    2:{ cbn [st evs res]. autorewrite with events. eexists. reflexivity. }
    destruct (setMathBounds DEFAULT_BOUNDS w1) as [w2 [[]|e2]]; cbn [fst snd].
    2:{ cbn [st evs res]. autorewrite with events. eexists. reflexivity. }
    destruct (settings w2) as [o|]; cbn [st evs res].
    + unfold settings_success_events. autorewrite with events.
      eexists. reflexivity.
    + autorewrite with events. eexists. reflexivity.
  - rewrite (applySettings_try_null s E). cbn [st evs res].
    rewrite (applySettingsIndividually_null s E). reflexivity.
Qed.

(** When the [try] block returns, the widget calls of the settings callback
    are the two batch calls, both returned. *)
Lemma settings_phase_success_calls (s : State) :
  res (applySettings_try s) = Ret tt ->
  calls (evs (applySettings_callback s))
  = [ (CUpdateSettings DEFAULT_SETTINGS, Ret tt);
      (CSetMathBounds DEFAULT_BOUNDS, Ret tt) ].
Proof.
  intros Hr. rewrite applySettings_callback_eq, applySettings_guarded_eq, Hr.
  cbn [evs]. revert Hr.
  destruct (calculator s) as [w|] eqn:E.
  - rewrite (applySettings_try_eq s w E). cbv zeta.
    destruct (updateSettings DEFAULT_SETTINGS w) as [w1 [[]|e1]]; cbn [fst snd];
      [|discriminate].
    destruct (setMathBounds DEFAULT_BOUNDS w1) as [w2 [[]|e2]]; cbn [fst snd];
      [|discriminate].
    destruct (settings w2) as [o|]; [|discriminate].
    intros _. cbn [evs]. unfold settings_success_events, status_lines.
    now autorewrite with events.
  - rewrite (applySettings_try_null s E). discriminate.
Qed.

(** C2.  The settings callback never throws.  Whichever path it took, it
    first attempts the settings and then, as its last action, registers the
    expression callback with a delay of 200: with a widget in place its
    widget calls start with [updateSettings(DEFAULT_SETTINGS)], all of them
    come before the timer, which is the only one it registers, and it
    registers no expression itself, so that in a page session no expression
    is registered before the settings callback has run.  When the [try]
    block returned, the calls are the two batch calls and the settings-ready
    flag and [window.calculatorReady] are set; when the individual path ran,
    the flag and the globals are left as they were. *)
Theorem settings_phase_schedules_expressions (s : State) :
  res (applySettings_callback s) = Ret tt
  /\ (exists pre : list Event,
        evs (applySettings_callback s) = pre ++ [ETimeout TAddExpressions 200]
        /\ timeouts pre = []
        /\ attempted pre = []
        /\ match calculator s with
           | Some w =>
               exists rest : list (Call * result unit),
                 calls pre
                 = (CUpdateSettings DEFAULT_SETTINGS,
                    snd (updateSettings DEFAULT_SETTINGS w))
                   :: rest
           | None => calls pre = []
           end)
  /\ timers (st (applySettings_callback s))
     = enqueue (now s + 200) TAddExpressions (timers s)
  /\ (forall z : string, attempted (evs (session z 1)) = [])
  /\ match res (applySettings_try s) with
     | Ret _ =>
         isReady (st (applySettings_callback s)) = true
         /\ get "calculatorReady" (window (st (applySettings_callback s)))
            = VBool true
         /\ calls (evs (applySettings_callback s))
            = [ (CUpdateSettings DEFAULT_SETTINGS, Ret tt);
                (CSetMathBounds DEFAULT_BOUNDS, Ret tt) ]
     | Throw _ =>
         isReady (st (applySettings_callback s)) = isReady s
         /\ window (st (applySettings_callback s)) = window s
     end.
Proof.
  split; [now rewrite applySettings_callback_eq|].
  split.
  { exists (EConsole Log [VStr "Applying calculator settings..."]
            :: evs (applySettings_guarded s)).
    split; [now rewrite applySettings_callback_eq|].
    destruct (applySettings_guarded_frame s) as (c & mid & Hg & Ha & Ht).
    pose proof (settings_phase_first_call s) as Hc.
    rewrite Hg in Hc |- *. cbn [evs] in Hc |- *.
    split; [now autorewrite with events|].
    split; [now autorewrite with events|].
    rewrite calls_console. exact Hc. }
  split; [apply settings_phase_timers|].
  split; [apply no_expression_before_settings|].
  pose proof (settings_phase_success_calls s) as Hcalls.
  rewrite applySettings_callback_eq in Hcalls |- *. cbn [st evs] in Hcalls |- *.
  destruct (applySettings_guarded_frame s) as (c & mid & Hg & _ & _).
  rewrite Hg in Hcalls |- *. cbn [st evs] in Hcalls |- *.
  destruct (res (applySettings_try s)) as [[]|e]; cbn.
  - split; [reflexivity|]. split; [apply get_set_same | now apply Hcalls].
  - split; reflexivity.
Qed.


(** C3, as the code has it.  When [setMathBounds] throws in the [try] block,
    the failure is logged and the individual path runs: one [updateSettings]
    call per fallback setting and [setMathBounds] once more, so it is called
    twice in all.  In the individual path [setMathBounds] is called once, as
    the last step, and a failure there leaves a console line and nothing
    else. *)
Theorem bounds_failure_in_batch_is_retried_once
    (s : State) (w w1 w2 : Widget) (e : value) :
  calculator s = Some w ->
  updateSettings DEFAULT_SETTINGS w = (w1, Ret tt) ->
  setMathBounds DEFAULT_BOUNDS w1 = (w2, Throw e) ->
  (exists r1 r2 r3 : result unit,
     evs (applySettings_callback s) =
       [ EConsole Log [VStr "Applying calculator settings..."];
         ECall (CUpdateSettings DEFAULT_SETTINGS) (Ret tt);
         ECall (CSetMathBounds DEFAULT_BOUNDS) (Throw e);
         EConsole Error [VStr "Error applying settings:"; e] ]
       ++ setting_events [("degreeMode", VBool false)] "Degree mode" r1
       ++ setting_events [("xAxisScale", VStr "logarithmic")]
            "X-axis logarithmic scale" r2
       ++ bounds_events r3
       ++ [ETimeout TAddExpressions 200]
     /\ bounds_calls (evs (applySettings_callback s)) =
          [(DEFAULT_BOUNDS, Throw e); (DEFAULT_BOUNDS, r3)])
  /\ (forall (s0 : State) (w0 : Widget),
        calculator s0 = Some w0 ->
        exists r1 r2 r3 : result unit,
          evs (applySettingsIndividually s0) =
            setting_events [("degreeMode", VBool false)] "Degree mode" r1
            ++ setting_events [("xAxisScale", VStr "logarithmic")]
                 "X-axis logarithmic scale" r2
            ++ bounds_events r3
          /\ bounds_calls (evs (applySettingsIndividually s0)) =
               [(DEFAULT_BOUNDS, r3)]).
Proof.
  intros E Hu Hb. split.
  - rewrite applySettings_callback_eq, applySettings_guarded_eq,
      (applySettings_try_eq s w E).
    cbv zeta. rewrite Hu. cbn [fst snd]. rewrite Hb. cbn [fst snd st evs res].
    rewrite applySettingsIndividually_at. cbv zeta. cbn [st evs res].
    do 3 eexists. split.
    + cbn [app]. rewrite <- !app_assoc. reflexivity.
    + now autorewrite with events.
  - intros s0 w0 E0. rewrite (applySettingsIndividually_eq s0 w0 E0).
    cbv zeta. cbn [evs]. do 3 eexists. split; [reflexivity|].
    now autorewrite with events.
Qed.

(** C9.  When the [try] block of the settings phase returns, the widget was
    given exactly the default settings and the default bounds, and both
    calls returned.  For a widget that keeps what it is given
    ([updateSettings] shows in [settings] every key it was passed,
    [setMathBounds] sets the bounds and leaves the settings alone), the
    settings then read [degreeMode = false], [xAxisScale = 'logarithmic'],
    [yAxisScale = 'linear'] and the bounds are
    [{left: 10000, right: 10000000000, bottom: -2, top: 2}]. *)
Theorem settings_success_applies_defaults
    (bounds_of : Widget -> option Bounds)
    (s : State) (w : Widget) :
  (forall (o : obj) (w0 w' : Widget),
     NoDup (map fst o) ->
     updateSettings o w0 = (w', Ret tt) ->
     exists so : obj,
       settings w' = Some so
       /\ forall k : string, In k (map fst o) -> get k so = get k o) ->
  (forall (b : Bounds) (w0 w' : Widget),
     setMathBounds b w0 = (w', Ret tt) ->
     settings w' = settings w0 /\ bounds_of w' = Some b) ->
  calculator s = Some w ->
  res (applySettings_try s) = Ret tt ->
  calls (evs (applySettings_callback s)) =
    [ (CUpdateSettings DEFAULT_SETTINGS, Ret tt);
      (CSetMathBounds DEFAULT_BOUNDS, Ret tt) ]
  /\ exists (w' : Widget) (so : obj),
       calculator (st (applySettings_callback s)) = Some w'
       /\ settings w' = Some so
       /\ get "degreeMode" so = VBool false
       /\ get "xAxisScale" so = VStr "logarithmic"
       /\ get "yAxisScale" so = VStr "linear"
       /\ bounds_of w' =
            Some {| left := 10000; right := 10000000000; bottom := -2; top := 2 |}.
Proof.
  intros Hus Hmb E Hr.
  rewrite applySettings_callback_eq, applySettings_guarded_eq.
  rewrite Hr. revert Hr. rewrite (applySettings_try_eq s w E). cbv zeta.
  destruct (updateSettings DEFAULT_SETTINGS w) as [w1 [[]|e1]] eqn:Hu;
    cbn [fst snd]; [|discriminate].
  destruct (setMathBounds DEFAULT_BOUNDS w1) as [w2 [[]|e2]] eqn:Hb;
    cbn [fst snd]; [|discriminate].
  destruct (settings w2) as [o|] eqn:Es; [|discriminate].
  intros _. cbn [st evs res]. split.
  - unfold settings_success_events, status_lines. now autorewrite with events.
  - destruct (Hmb _ _ _ Hb) as [Hsame Hbounds].
    destruct (Hus DEFAULT_SETTINGS w w1) as (so & Hso & Hget); [|exact Hu|].
    { simpl. repeat constructor; simpl; intuition discriminate. }
    exists w2, so. split; [reflexivity|].
    split; [now rewrite Hsame|].
    split; [apply (Hget "degreeMode"); simpl; auto|].
    split; [apply (Hget "xAxisScale"); simpl; auto|].
    split; [apply (Hget "yAxisScale"); simpl; auto|].
    exact Hbounds.
Qed.

(** ** Initialisation *)

Lemma fire_n_idle (n : nat) (s : State) :
  timers s = [] -> fire_n n s = mkOut s [] (Ret tt).
Proof.
  intros E. induction n as [|n IH]; [reflexivity|].
  cbn [fire_n].
  assert (Hf : (TRY fire CATCH _e => ret tt) s = mkOut s [] (Ret tt)).
  { rewrite try_Ret; unfold fire; now rewrite E. }
  step Hf. now rewrite IH.
Qed.

(** C6.  When the DOM has no element for the mount id, [init] writes its
    opening line and the error line and returns: the state is unchanged (no
    widget, no timer, no global), the call does not throw, and with no timer
    pending nothing runs afterwards. *)
Theorem init_without_mount_point (s : State) :
  getElementById (elementId s) = None ->
  init s =
    mkOut s
          [ EConsole Log [VStr "Initializing Desmos Calculator..."];
            EConsole Error
              [VStr ("Element with ID '" ++ elementId s ++ "' not found")%string] ]
          (Ret tt)
  /\ timeouts (evs (init s)) = []
  /\ calls (evs (init s)) = []
  /\ forallb is_console (evs (init s)) = true
  /\ forall n : nat, timers s = [] -> fire_n n (st (init s)) = mkOut s [] (Ret tt).
Proof.
  intros E.
  assert (Hi : init s =
    mkOut s
          [ EConsole Log [VStr "Initializing Desmos Calculator..."];
            EConsole Error
              [VStr ("Element with ID '" ++ elementId s ++ "' not found")%string] ]
          (Ret tt)).
  { unfold init. prim. rewrite E. reflexivity. }
  rewrite Hi. cbn [st evs]. repeat split.
  intros n Hq. now apply fire_n_idle.
Qed.


(** ** What an action leaves of the state *)

Section Frame.

Variable P : State -> State -> Prop.
Hypothesis P_refl : forall s : State, P s s.
Hypothesis P_trans : forall a b c : State, P a b -> P b c -> P a c.

Lemma keeps_ret {A : Type} (a : A) : keeps P (ret a).
Proof. intros s. apply P_refl. Qed.

Lemma keeps_emit (ev : Event) : keeps P (emit ev).
Proof. intros s. apply P_refl. Qed.

Lemma keeps_read_setting (k : string) : keeps P (read_setting k).
Proof.
  intros s. unfold read_setting.
  destruct (calculator s) as [w|]; [destruct (settings w)|]; apply P_refl.
Qed.

Lemma keeps_bind {A B : Type} (m : M A) (k : A -> M B) :
  keeps P m -> (forall a : A, keeps P (k a)) -> keeps P (bind m k).
Proof.
  intros Hm Hk s. unfold bind. specialize (Hm s).
  destruct (res (m s)) as [a|e]; cbn [st]; [|exact Hm].
  exact (P_trans _ _ _ Hm (Hk a (st (m s)))).
Qed.

Lemma keeps_try (m : M unit) (h : value -> M unit) :
  keeps P m -> (forall e : value, keeps P (h e)) -> keeps P (try_catch m h).
Proof.
  intros Hm Hh s. unfold try_catch. specialize (Hm s).
  destruct (res (m s)) as [a|e]; cbn [st]; [exact Hm|].
  exact (P_trans _ _ _ Hm (Hh e (st (m s)))).
Qed.

Lemma keeps_forEach_from {A : Type} (f : A -> nat -> M unit) (l : list A) :
  (forall (x : A) (i : nat), keeps P (f x i)) ->
  forall i : nat, keeps P (forEach_from i l f).
Proof.
  intros Hf. induction l as [|x l IH]; intros i; cbn [forEach_from].
  - apply keeps_ret.
  - apply keeps_bind; [apply Hf | intros _; apply IH].
Qed.

(** Actions that only touch the widget. *)
Hypothesis P_widget :
  forall (c : option Widget) (s : State), P s (with_calculator c s).

Lemma keeps_widget_call (c : Call) : keeps P (widget_call c).
Proof.
  intros s. unfold widget_call.
  destruct (calculator s) as [w|]; [|apply P_refl].
  destruct (invoke c w). apply P_widget.
Qed.

Lemma keeps_try_setting (entry : obj * string) (i : nat) :
  keeps P (try_setting entry i).
Proof.
  destruct entry as [setting name]. unfold try_setting.
  apply keeps_try; [apply keeps_bind|]; intros;
    auto using keeps_widget_call, keeps_emit.
Qed.

Lemma keeps_applySettingsIndividually : keeps P applySettingsIndividually.
Proof.
  unfold applySettingsIndividually.
  apply keeps_bind; [apply keeps_forEach_from, keeps_try_setting|].
  intros _. apply keeps_try; [apply keeps_bind|]; intros;
    auto using keeps_widget_call, keeps_emit.
Qed.

Lemma keeps_logSettingsStatus : keeps P logSettingsStatus.
Proof.
  unfold logSettingsStatus.
  repeat first [ apply keeps_bind; intros
               | apply keeps_emit
               | apply keeps_read_setting ].
Qed.

Lemma keeps_addCoreExpressions : keeps P addCoreExpressions.
Proof.
  apply keeps_forEach_from. intros x i. apply keeps_widget_call.
Qed.

Lemma keeps_addUnitDefinitions : keeps P addUnitDefinitions.
Proof.
  apply keeps_forEach_from. intros x i. unfold add_unit.
  apply keeps_try; [apply keeps_bind|]; intros;
    auto using keeps_widget_call, keeps_emit.
Qed.


Hypothesis P_window : forall (o : obj) (s : State), P s (with_window o s).

Hypothesis P_clock :
  forall (t : nat) (q : list (nat * Task)) (s : State), P s (with_clock t q s).

Lemma keeps_set_global (name : string) (v : value) : keeps P (set_global name v).
Proof. intros s. apply P_window. Qed.

Lemma keeps_setTimeout (t : Task) (delay : nat) : keeps P (setTimeout t delay).
Proof. intros s. apply P_clock. Qed.

Lemma keeps_init : keeps P init.
Proof.
  unfold init. apply keeps_bind; [apply keeps_emit|].
  intros _ s. destruct (getElementById (elementId s)) as [el|];
    [|apply keeps_emit].
  revert s. fold (keeps P (construct el CALCULATOR_CONFIG ;;
                           set_global "desmosCalc" VHandle ;;
                           console_log [VStr "Calculator object available as window.desmosCalc for debugging"] ;;
                           applySettings)).
  apply keeps_bind.
  - intros s. unfold construct.
    destruct (GraphingCalculator el CALCULATOR_CONFIG); [apply P_widget | apply P_refl].
  - intros _.
    repeat first [ apply keeps_bind; intros
                 | apply keeps_emit
                 | apply keeps_set_global
                 | apply keeps_setTimeout ].
Qed.

Section Settings.

Hypothesis P_ready : forall s : State, P s (with_isReady true s).

Lemma keeps_set_isReady : keeps P (set_isReady true).
Proof. intros s. exact (P_ready s). Qed.

Lemma keeps_applySettings_callback : keeps P applySettings_callback.
Proof.
  unfold applySettings_callback, applySettings_guarded, applySettings_try,
    addExpressions.
  repeat first [ apply keeps_logSettingsStatus
               | apply keeps_applySettingsIndividually
               | apply keeps_emit
               | apply keeps_widget_call
               | apply keeps_set_global
               | apply keeps_setTimeout
               | apply keeps_set_isReady
               | apply keeps_try; intros
               | apply keeps_bind; intros ].
Qed.

End Settings.

Section Expressions.

Hypothesis P_fully : forall s : State, P s (with_isFullyReady true s).

Lemma keeps_set_isFullyReady : keeps P (set_isFullyReady true).
Proof. intros s. exact (P_fully s). Qed.

Lemma keeps_addExpressions_callback : keeps P addExpressions_callback.
Proof.
  unfold addExpressions_callback, addExpressions_try.
  repeat first [ apply keeps_addCoreExpressions
               | apply keeps_addUnitDefinitions
               | apply keeps_emit
               | apply keeps_set_global
               | apply keeps_set_isFullyReady
               | apply keeps_try; intros
               | apply keeps_bind; intros ].
Qed.

End Expressions.

End Frame.


(** ** The readiness flags *)

Lemma flags_grow_refl (s : State) : flags_grow s s.
Proof. split; auto. Qed.

Lemma flags_grow_trans (a b c : State) :
  flags_grow a b -> flags_grow b c -> flags_grow a c.
Proof. intros [H1 H2] [H3 H4]. split; auto. Qed.

Lemma keeps_callback_flags (t : Task) : keeps flags_grow (callback t).
Proof.
  destruct t; cbn [callback].
  - apply keeps_applySettings_callback;
      solve [ apply flags_grow_refl | apply flags_grow_trans
            | intros; split; auto ].
  - apply keeps_addExpressions_callback;
      solve [ apply flags_grow_refl | apply flags_grow_trans
            | intros; split; auto ].
Qed.

Lemma perform_grows (m : Method) : keeps flags_grow (perform m).
Proof.
  destruct m; cbn [perform].
  - apply keeps_init;
      solve [ apply flags_grow_refl | apply flags_grow_trans
            | intros; split; auto ].
  - apply keeps_setTimeout. intros; split; auto.
  - apply keeps_applySettingsIndividually;
      solve [ apply flags_grow_refl | apply flags_grow_trans
            | intros; split; auto ].
  - apply keeps_logSettingsStatus;
      solve [ apply flags_grow_refl | apply flags_grow_trans ].
  - apply keeps_setTimeout. intros; split; auto.
  - apply keeps_addCoreExpressions;
      solve [ apply flags_grow_refl | apply flags_grow_trans
            | intros; split; auto ].
  - apply keeps_addUnitDefinitions;
      solve [ apply flags_grow_refl | apply flags_grow_trans
            | intros; split; auto ].
  - intros s. unfold fire. destruct (timers s) as [|[due t] q].
    + apply flags_grow_refl.
    + apply (keeps_callback_flags t (with_clock (Nat.max (now s) due) q s)).
Qed.

Lemma perform_all_grows (ms : list Method) :
  forall s : State, flags_grow s (perform_all ms s).
Proof.
  induction ms as [|m ms IH]; intros s.
  - apply flags_grow_refl.
  - cbn [perform_all fold_left].
    apply (flags_grow_trans _ _ _ (perform_grows m s)), IH.
Qed.

Lemma st_session (z : string) (n : nat) :
  st (session z n) = st (fire_n n (st (init (new_manager "calculator" z)))).
Proof.
  unfold session.
  rewrite (bind_Ret _ _ _ tt (res_try_ignore _ _)). cbn [st].
  now rewrite st_try_ignore.
Qed.

Lemma st_fire_n_S (n : nat) (s : State) :
  st (fire_n (S n) s) = st (fire_n n (st (fire s))).
Proof.
  cbn [fire_n].
  rewrite (bind_Ret _ _ _ tt (res_try_ignore _ _)). cbn [st].
  now rewrite st_try_ignore.
Qed.

(** Once only expression callbacks are pending, the settings-ready flag no
    longer changes. *)
Lemma fire_expressions_only (s : State) :
  only_expressions_pending s ->
  only_expressions_pending (st (fire s)) /\ isReady (st (fire s)) = isReady s.
Proof.
  unfold only_expressions_pending, fire. intros Hq.
  destruct (timers s) as [|[due t] q] eqn:E.
  - cbn [st]. now rewrite E.
  - inversion Hq as [|p q' Ht Hq']; subst. cbn [snd] in Ht. subst t.
    cbn [callback].
    destruct (keeps_addExpressions_callback ready_untouched)
      with (s := with_clock (Nat.max (now s) due) q s) as [Hr Hk];
      try solve [ intros; split; reflexivity ].
    { intros a b c [H1 H2] [H3 H4]. split; congruence. }
    rewrite Hr, Hk. auto.
Qed.

Lemma fire_n_expressions_only (n : nat) :
  forall s : State,
    only_expressions_pending s -> isReady (st (fire_n n s)) = isReady s.
Proof.
  induction n as [|n IH]; intros s Hq; [reflexivity|].
  rewrite st_fire_n_S. destruct (fire_expressions_only s Hq) as [Hq' Hr].
  now rewrite (IH _ Hq').
Qed.

(** After [initializeCalculator] and the first timer, the fully-ready flag
    is still [false] and only expression callbacks are pending. *)
Lemma after_settings_phase (z : string) :
  isFullyReady (st (session z 1)) = false
  /\ only_expressions_pending (st (session z 1)).
Proof.
  rewrite st_session, st_fire_n_S. cbn [fire_n ret st].
  rewrite init_eq. cbn [new_manager DesmosCalculatorManager elementId].
  destruct (getElementById "calculator") as [el|]; [|split; [reflexivity | constructor]].
  destruct (GraphingCalculator el CALCULATOR_CONFIG) as [w|e];
    [|split; [reflexivity | constructor]].
  cbn [st].
  rewrite (fire_head
             (scheduled TApplySettings 500
                (with_window
                   (set "desmosCalc" VHandle (window (new_manager "calculator" z)))
                   (with_calculator (Some w) (new_manager "calculator" z))))
             500 TApplySettings [] eq_refl).
  cbn [callback].
  match goal with |- context [applySettings_callback ?s0] => set (s1 := s0) end.
  split.
  - rewrite (keeps_applySettings_callback fully_untouched);
      try solve [ reflexivity | intros; reflexivity ].
    intros a b c H1 H2. unfold fully_untouched in *. congruence.
  - destruct (settings_phase_timers s1) as [Ht _]. unfold only_expressions_pending.
    rewrite Ht. repeat constructor.
Qed.


(** C8, as the code has it.  The flags are booleans, only ever assigned the
    literals [false] (in the constructor) and [true].  A new manager has
    both flags [false]; no method call and no timer, alone or in sequence,
    turns a flag that is [true] back to [false]; in a page session the
    settings-ready flag takes its final value when the first timer fires,
    while the fully-ready flag is still [false].  (That final value is
    [false] when the individual path ran, and the fully-ready flag may then
    become [true] on its own.) *)
Theorem readiness_flags_only_grow :
  (forall (eid z : string) (w : obj) (t : nat) (q : list (nat * Task)),
     isReady (DesmosCalculatorManager eid z w t q) = false
     /\ isFullyReady (DesmosCalculatorManager eid z w t q) = false)
  /\ (forall (m : Method) (s : State), flags_grow s (st (perform m s)))
  /\ (forall (ms : list Method) (s : State), flags_grow s (perform_all ms s))
  /\ (forall z : string,
        isFullyReady (st (session z 1)) = false
        /\ forall n : nat,
             isReady (st (session z (S n))) = isReady (st (session z 1))).
Proof.
  split; [intros; split; reflexivity|].
  split; [intros m s; apply perform_grows|].
  split; [intros ms s; apply perform_all_grows|].
  intros z. destruct (after_settings_phase z) as [Hf Hq]. split; [exact Hf|].
  intros n. rewrite !st_session, !st_fire_n_S in *. cbn [fire_n ret st] in *.
  now apply fire_n_expressions_only.
Qed.

(** ** The formula string *)

Ltac same_public :=
  let s1 := fresh "s1" in
  let s2 := fresh "s2" in
  let H := fresh "H" in
  intros s1 s2 H; destruct s1, s2; unfold public in H; cbn in H;
  injection H as; subst.

Lemma blind_ret {A : Type} (a : A) : blind (ret a).
Proof. intros s1 s2 H. cbn. auto. Qed.

Lemma blind_emit (ev : Event) : blind (emit ev).
Proof. intros s1 s2 H. cbn. auto. Qed.

Lemma blind_bind {A B : Type} (m : M A) (k : A -> M B) :
  blind m -> (forall a : A, blind (k a)) -> blind (bind m k).
Proof.
  intros Hm Hk s1 s2 H. destruct (Hm s1 s2 H) as (Hs & He & Hr).
  unfold bind. rewrite Hr, He.
  destruct (res (m s2)) as [a|e]; cbn [st evs res]; [|auto].
  destruct (Hk a _ _ Hs) as (Hs' & He' & Hr'). now rewrite He', Hr'.
Qed.

Lemma blind_try (m : M unit) (h : value -> M unit) :
  blind m -> (forall e : value, blind (h e)) -> blind (try_catch m h).
Proof.
  intros Hm Hh s1 s2 H. destruct (Hm s1 s2 H) as (Hs & He & Hr).
  unfold try_catch. rewrite Hr.
  destruct (res (m s2)) as [a|e] eqn:E.
  - rewrite <- Hr in E. auto.
  - cbn [st evs res]. rewrite He.
    destruct (Hh e _ _ Hs) as (Hs' & He' & Hr'). now rewrite He', Hr'.
Qed.

Lemma blind_forEach_from {A : Type} (f : A -> nat -> M unit) (l : list A) :
  (forall (x : A) (i : nat), blind (f x i)) ->
  forall i : nat, blind (forEach_from i l f).
Proof.
  intros Hf. induction l as [|x l IH]; intros i; cbn [forEach_from].
  - apply blind_ret.
  - apply blind_bind; [apply Hf | intros _; apply IH].
Qed.

Lemma blind_widget_call (c : Call) : blind (widget_call c).
Proof.
  same_public. unfold widget_call. cbn [calculator].
  destruct calculator1 as [w|]; [|cbn; auto].
  destruct (invoke c w); cbn; auto.
Qed.

Lemma blind_read_setting (k : string) : blind (read_setting k).
Proof.
  same_public. unfold read_setting. cbn [calculator].
  destruct calculator1 as [w|]; [destruct (settings w)|]; cbn; auto.
Qed.

Lemma blind_set_isReady (b : bool) : blind (set_isReady b).
Proof. same_public. cbn. auto. Qed.

Lemma blind_set_isFullyReady (b : bool) : blind (set_isFullyReady b).
Proof. same_public. cbn. auto. Qed.

Lemma blind_set_global (name : string) (v : value) : blind (set_global name v).
Proof. same_public. cbn. auto. Qed.

Lemma blind_setTimeout (t : Task) (delay : nat) : blind (setTimeout t delay).
Proof. same_public. cbn. auto. Qed.

Lemma blind_construct (el : Element) (config : obj) : blind (construct el config).
Proof.
  same_public. unfold construct. cbn [elementId].
  destruct (GraphingCalculator el config); cbn; auto.
Qed.

Ltac blind_steps :=
  repeat first [ apply blind_emit
               | apply blind_ret
               | apply blind_widget_call
               | apply blind_read_setting
               | apply blind_set_isReady
               | apply blind_set_isFullyReady
               | apply blind_set_global
               | apply blind_setTimeout
               | apply blind_construct
               | apply blind_forEach_from; intros
               | apply blind_try; intros
               | apply blind_bind; intros ].

Lemma blind_callback (t : Task) : blind (callback t).
Proof.
  destruct t; cbn [callback].
  - unfold applySettings_callback, applySettings_guarded, applySettings_try,
      logSettingsStatus, applySettingsIndividually, forEach, addExpressions.
    blind_steps.
    match goal with x : obj * string |- _ => destruct x end.
    unfold try_setting. blind_steps.
  - unfold addExpressions_callback, addExpressions_try, addCoreExpressions,
      addUnitDefinitions, forEach.
    blind_steps; unfold add_core, add_unit; blind_steps.
Qed.

Lemma blind_init : blind init.
Proof.
  unfold init. apply blind_bind; [apply blind_emit|]. intros _ s1 s2 H.
  assert (He : elementId s1 = elementId s2).
  { unfold public in H. now injection H. }
  rewrite He. destruct (getElementById (elementId s2)) as [el|].
  - revert s1 s2 H He.
    assert (Hb : blind (construct el CALCULATOR_CONFIG ;;
                        set_global "desmosCalc" VHandle ;;
                        console_log [VStr "Calculator object available as window.desmosCalc for debugging"] ;;
                        applySettings)).
    { unfold applySettings. blind_steps. }
    intros s1 s2 H _. exact (Hb s1 s2 H).
  - cbn. auto.
Qed.

Lemma blind_fire : blind fire.
Proof.
  intros s1 s2 H. unfold fire.
  assert (Hq : timers s1 = timers s2 /\ now s1 = now s2).
  { unfold public in H. injection H as. auto. }
  destruct Hq as [Hq Hn]. rewrite Hq, Hn.
  destruct (timers s2) as [|[due t] q]; [cbn; auto|].
  apply blind_callback.
  unfold public in *. injection H as. cbn. congruence.
Qed.

Lemma blind_fire_n (n : nat) : blind (fire_n n).
Proof.
  induction n as [|n IH]; cbn [fire_n]; [apply blind_ret|].
  apply blind_bind; [|intros _; exact IH].
  apply blind_try; [apply blind_fire | intros _; apply blind_ret].
Qed.

(** C10.  The formula string passed to [initializeCalculator] changes
    nothing but the [zLatex] field: for any two strings, in the same page
    with the same widget, the events (widget calls, console lines, globals
    written, timers), the completion, the flags, the globals and the widget
    are the same, after [initializeCalculator] and after any number of
    timers. *)
Theorem formula_string_is_unused (z1 z2 : string) (n : nat) :
  evs (initializeCalculator z1) = evs (initializeCalculator z2)
  /\ res (initializeCalculator z1) = res (initializeCalculator z2)
  /\ evs (session z1 n) = evs (session z2 n)
  /\ res (session z1 n) = res (session z2 n)
  /\ public (st (session z1 n)) = public (st (session z2 n))
  /\ getStatus (st (session z1 n)) = getStatus (st (session z2 n)).
Proof.
  assert (H0 : public (new_manager "calculator" z1)
               = public (new_manager "calculator" z2)) by reflexivity.
  destruct (blind_init _ _ H0) as (_ & Hie & Hir).
  assert (Hb : blind ((TRY init CATCH _e => ret tt) ;; fire_n n)).
  { apply blind_bind; [|intros _; apply blind_fire_n].
    apply blind_try; [apply blind_init | intros _; apply blind_ret]. }
  destruct (Hb _ _ H0) as (Hs & He & Hr).
  repeat split; try assumption.
  unfold getStatus. unfold public in Hs.
  change (st (session z1 n)) with
    (st (((TRY init CATCH _e => ret tt) ;; fire_n n) (new_manager "calculator" z1))).
  change (st (session z2 n)) with
    (st (((TRY init CATCH _e => ret tt) ;; fire_n n) (new_manager "calculator" z2))).
  injection Hs as. congruence.
Qed.


(** * Further properties of the script *)

(** ** [init] with a mount point *)

(** X1.  When the DOM has the element and the library returns a widget,
    [init] returns normally having constructed one widget with the static
    configuration, stored it in [this.calculator], published it once as
    [window.desmosCalc], and registered one timer, the settings callback
    with a delay of 500; it calls no widget method and leaves the flags. *)
Theorem init_with_mount_point (s : State) (el : Element) (w : Widget) :
  getElementById (elementId s) = Some el ->
  GraphingCalculator el CALCULATOR_CONFIG = Ret w ->
  res (init s) = Ret tt
  /\ calculator (st (init s)) = Some w
  /\ constructions (evs (init s)) = [(CALCULATOR_CONFIG, Ret tt)]
  /\ globals_written (evs (init s)) = [("desmosCalc", VHandle)]
  /\ get "desmosCalc" (window (st (init s))) = VHandle
  /\ timeouts (evs (init s)) = [(TApplySettings, 500)]
  /\ timers (st (init s)) = enqueue (now s + 500) TApplySettings (timers s)
  /\ calls (evs (init s)) = []
  /\ isReady (st (init s)) = isReady s
  /\ isFullyReady (st (init s)) = isFullyReady s.
Proof.
  intros Hel Hw. rewrite init_eq, Hel, Hw. cbn [st evs res].
  repeat split. cbn. apply get_set_same.
Qed.

(** X2.  When the library throws on construction, [init] throws the same
    value to its caller: the state is unchanged, no global is written, no
    timer is registered, and with no timer pending nothing runs later. *)
Theorem init_constructor_failure (s : State) (el : Element) (e : value) :
  getElementById (elementId s) = Some el ->
  GraphingCalculator el CALCULATOR_CONFIG = Throw e ->
  init s =
    mkOut s
          [ EConsole Log [VStr "Initializing Desmos Calculator..."];
            EConstruct (elementId s) CALCULATOR_CONFIG (Throw e) ]
          (Throw e)
  /\ globals_written (evs (init s)) = []
  /\ timeouts (evs (init s)) = []
  /\ forall n : nat, timers s = [] -> fire_n n (st (init s)) = mkOut s [] (Ret tt).
Proof.
  intros Hel Hw. rewrite init_eq, Hel, Hw. cbn [st evs].
  repeat split. intros n Hq. now apply fire_n_idle.
Qed.

(** ** The two timers *)

Lemma fire_n_settled (k : nat) :
  forall (s : State) (n : nat),
    timers (st (fire_n k s)) = [] -> fire_n (k + n) s = fire_n k s.
Proof.
  induction k as [|k IH]; intros s n Hq.
  - cbn in Hq. cbn [Nat.add fire_n ret]. now apply fire_n_idle.
  - rewrite st_fire_n_S in Hq. cbn [Nat.add fire_n].
    rewrite !(bind_Ret _ _ _ tt (res_try_ignore _ _)).
    rewrite st_try_ignore. now rewrite (IH _ n Hq).
Qed.

Lemma expressions_keep_clock (s : State) :
  now (st (addExpressions_callback s)) = now s
  /\ timers (st (addExpressions_callback s)) = timers s.
Proof.
  apply (keeps_addExpressions_callback (fun a b => now b = now a /\ timers b = timers a));
    try solve [ intros; split; reflexivity ].
  intros a b c [H1 H2] [H3 H4]. split; congruence.
Qed.

(** The timer queue after [initializeCalculator] and one timer. *)
Lemma session_1_timers (z : string) :
  timers (st (session z 1)) = []
  \/ exists due : nat, timers (st (session z 1)) = [(due, TAddExpressions)].
Proof.
  rewrite st_session, st_fire_n_S. cbn [fire_n ret st].
  rewrite init_eq. cbn [new_manager DesmosCalculatorManager elementId].
  destruct (getElementById "calculator") as [el|]; [|now left].
  destruct (GraphingCalculator el CALCULATOR_CONFIG) as [w|e]; [|now left].
  cbn [st].
  rewrite (fire_head
             (scheduled TApplySettings 500
                (with_window
                   (set "desmosCalc" VHandle (window (new_manager "calculator" z)))
                   (with_calculator (Some w) (new_manager "calculator" z))))
             500 TApplySettings [] eq_refl).
  cbn [callback]. right. eexists.
  match goal with |- context [applySettings_callback ?s0] =>
    destruct (settings_phase_timers s0) as [Ht _]; rewrite Ht
  end.
  reflexivity.
Qed.

Lemma st_fire_n_last (n : nat) :
  forall s : State, st (fire_n (S n) s) = st (fire (st (fire_n n s))).
Proof.
  induction n as [|n IH]; intros s.
  - now rewrite st_fire_n_S.
  - rewrite st_fire_n_S, IH. now rewrite <- st_fire_n_S.
Qed.

(** One more timer in a session. *)
Lemma st_session_S (z : string) (n : nat) :
  st (session z (S n)) = st (fire (st (session z n))).
Proof. now rewrite !st_session, st_fire_n_last. Qed.

Lemma session_2_timers (z : string) : timers (st (session z 2)) = [].
Proof.
  rewrite st_session_S.
  destruct (session_1_timers z) as [Hq | [due Hq]].
  - now rewrite (fire_idle _ Hq).
  - rewrite (fire_head _ _ _ _ Hq). cbn [callback].
    now destruct (expressions_keep_clock
                    (with_clock (Nat.max (now (st (session z 1))) due) []
                       (st (session z 1)))) as [_ ->].
Qed.

(** X3.  A page session is over after two timers: whatever the widget does,
    no timer is pending then, and letting more timers fire changes neither
    the state nor the events. *)
Theorem session_settles_after_two_timers (z : string) (n : nat) :
  timers (st (session z 2)) = []
  /\ session z (2 + n) = session z 2.
Proof.
  split; [apply session_2_timers|].
  pose proof (session_2_timers z) as Hq. rewrite st_session in Hq.
  unfold session.
  rewrite !(bind_Ret _ _ _ tt (res_try_ignore _ _)).
  rewrite st_try_ignore. now rewrite (fire_n_settled 2 _ n Hq).
Qed.


(** ** The individual path *)

(** X5.  [applySettingsIndividually] never throws, whatever the widget does
    and also when there is no widget: each of its three steps leaves exactly
    one console line, it makes three widget calls (none without a widget),
    and it leaves the flags, the globals and the timers alone. *)
Theorem individual_path_never_throws (s : State) :
  res (applySettingsIndividually s) = Ret tt
  /\ length (console_lines (evs (applySettingsIndividually s))) = 3
  /\ length (calls (evs (applySettingsIndividually s)))
     = match calculator s with Some _ => 3 | None => 0 end
  /\ globals_written (evs (applySettingsIndividually s)) = []
  /\ timeouts (evs (applySettingsIndividually s)) = []
  /\ isReady (st (applySettingsIndividually s)) = isReady s
  /\ isFullyReady (st (applySettingsIndividually s)) = isFullyReady s
  /\ window (st (applySettingsIndividually s)) = window s
  /\ timers (st (applySettingsIndividually s)) = timers s.
Proof.
  destruct (calculator s) as [w|] eqn:E.
  - rewrite (applySettingsIndividually_eq s w E). cbv zeta. cbn [st evs res].
    destruct (updateSettings [("degreeMode", VBool false)] w) as [w1 [[]|e1]];
      cbn [fst snd];
      destruct (updateSettings [("xAxisScale", VStr "logarithmic")] w1)
        as [w2 [[]|e2]];
      cbn [fst snd];
      destruct (setMathBounds DEFAULT_BOUNDS w2) as [w3 [[]|e3]];
      repeat split.
  - rewrite (applySettingsIndividually_null s E). repeat split.
Qed.

(** ** Methods called before [init] *)

Lemma add_unit_null (u : Expression) (i : nat) (s : State) :
  calculator s = None ->
  add_unit u i s =
    mkOut s
          [EConsole Error
             [VStr ("Unit " ++ string_of_nat (i + 1) ++ " failed:")%string; VTypeError]]
          (Ret tt).
Proof.
  intros E. unfold add_unit.
  pose proof (widget_call_null (CSetExpression u) s E) as Hc.
  rewrite (try_Throw _ _ _ VTypeError); step Hc; reflexivity.
Qed.

Lemma unit_loop_null (l : list Expression) :
  forall (i : nat) (s : State),
    calculator s = None ->
    forEach_from i l add_unit s = mkOut s (unit_failures i l) (Ret tt).
Proof.
  induction l as [|u l IH]; intros i s E; [reflexivity|].
  cbn [forEach_from unit_failures].
  pose proof (add_unit_null u i s E) as Hu.
  rewrite (bind_Ret _ _ s tt) by (rewrite Hu; reflexivity).
  rewrite Hu. cbn [st evs res]. now rewrite (IH (S i) s E).
Qed.

Lemma addCoreExpressions_null (s : State) :
  calculator s = None -> addCoreExpressions s = mkOut s [] (Throw VTypeError).
Proof.
  intros E. unfold addCoreExpressions, forEach, coreExpressions.
  cbn [forEach_from]. unfold add_core at 1.
  pose proof (widget_call_null
                (CSetExpression
                   {| id := "f"; latex := "Z = \frac{1}{1+sR_{e}C_{e}}";
                      sliderBounds := None |}) s E) as Hc.
  rewrite (bind_Throw _ _ s VTypeError) by (rewrite Hc; reflexivity).
  now rewrite Hc.
Qed.

Lemma addExpressions_try_null (s : State) :
  calculator s = None -> addExpressions_try s = mkOut s [] (Throw VTypeError).
Proof.
  intros E. unfold addExpressions_try.
  pose proof (addCoreExpressions_null s E) as Hc.
  rewrite (bind_Throw _ _ s VTypeError) by (rewrite Hc; reflexivity).
  now rewrite Hc.
Qed.

Lemma logSettingsStatus_null (s : State) :
  calculator s = None ->
  logSettingsStatus s =
    mkOut s [EConsole Log [VStr "Settings applied successfully!"]] (Throw VTypeError).
Proof.
  intros E. unfold logSettingsStatus. prim.
  assert (Hr : read_setting "degreeMode" s = mkOut s [] (Throw VTypeError)).
  { unfold read_setting. now rewrite E. }
  rewrite (bind_Throw _ _ s VTypeError) by (rewrite Hr; reflexivity).
  now rewrite Hr.
Qed.

(** The expression callback in terms of its [try] block. *)
Lemma addExpressions_callback_struct (s : State) :
  addExpressions_callback s =
    match res (addExpressions_try s) with
    | Ret _ =>
        mkOut (st (addExpressions_try s))
              (EConsole Log [VStr "Adding expressions..."]
               :: evs (addExpressions_try s))
              (Ret tt)
    | Throw e =>
        mkOut (st (addExpressions_try s))
              (EConsole Log [VStr "Adding expressions..."]
               :: evs (addExpressions_try s)
               ++ [EConsole Error [VStr "Error adding expressions:"; e]])
              (Ret tt)
    end.
Proof.
  unfold addExpressions_callback. prim.
  destruct (res (addExpressions_try s)) as [[]|e] eqn:Er.
  - rewrite (try_Ret _ _ _ Er). now rewrite Er.
  - now rewrite (try_Throw _ _ _ e Er).
Qed.

(** X6.  On a manager whose [calculator] is still [null] no method reaches
    a widget or changes a flag: [addCoreExpressions] and [logSettingsStatus]
    throw a [TypeError] to their caller, the others log the [TypeError]s and
    return; the settings callback still registers the expression callback. *)
Theorem methods_before_init (s : State) :
  calculator s = None ->
  addCoreExpressions s = mkOut s [] (Throw VTypeError)
  /\ logSettingsStatus s =
       mkOut s [EConsole Log [VStr "Settings applied successfully!"]]
             (Throw VTypeError)
  /\ addUnitDefinitions s = mkOut s (unit_failures 0 UNIT_DEFINITIONS) (Ret tt)
  /\ applySettingsIndividually s =
       mkOut s
             [ EConsole Error [VStr "Degree mode failed:"; VTypeError];
               EConsole Error [VStr "X-axis logarithmic scale failed:"; VTypeError];
               EConsole Error [VStr "Math bounds failed:"; VTypeError] ]
             (Ret tt)
  /\ addExpressions_callback s =
       mkOut s
             [ EConsole Log [VStr "Adding expressions..."];
               EConsole Error [VStr "Error adding expressions:"; VTypeError] ]
             (Ret tt)
  /\ applySettings_callback s =
       mkOut (scheduled TAddExpressions 200 s)
             [ EConsole Log [VStr "Applying calculator settings..."];
               EConsole Error [VStr "Error applying settings:"; VTypeError];
               EConsole Error [VStr "Degree mode failed:"; VTypeError];
               EConsole Error [VStr "X-axis logarithmic scale failed:"; VTypeError];
               EConsole Error [VStr "Math bounds failed:"; VTypeError];
               ETimeout TAddExpressions 200 ]
             (Ret tt).
Proof.
  intros E.
  split; [now apply addCoreExpressions_null|].
  split; [now apply logSettingsStatus_null|].
  split; [now apply unit_loop_null|].
  split; [now apply applySettingsIndividually_null|].
  split.
  - rewrite addExpressions_callback_struct, (addExpressions_try_null s E).
    reflexivity.
  - rewrite applySettings_callback_eq, applySettings_guarded_eq,
      (applySettings_try_null s E).
    cbn [st evs res]. rewrite (applySettingsIndividually_null s E). reflexivity.
Qed.

(** ** [logSettingsStatus] *)

(** X7.  [logSettingsStatus] only reads: it leaves the manager as it is and
    writes console lines only.  With a widget whose [settings] is defined it
    logs the three values of that snapshot and returns; with no widget, or
    with [settings] undefined, it throws a [TypeError] after its first
    line. *)
Theorem logSettingsStatus_only_reads (s : State) :
  st (logSettingsStatus s) = s
  /\ forallb is_console (evs (logSettingsStatus s)) = true
  /\ match calculator s with
     | Some w =>
         match settings w with
         | Some o =>
             evs (logSettingsStatus s) = status_lines o
             /\ res (logSettingsStatus s) = Ret tt
         | None =>
             evs (logSettingsStatus s)
             = [EConsole Log [VStr "Settings applied successfully!"]]
             /\ res (logSettingsStatus s) = Throw VTypeError
         end
     | None =>
         evs (logSettingsStatus s)
         = [EConsole Log [VStr "Settings applied successfully!"]]
         /\ res (logSettingsStatus s) = Throw VTypeError
     end.
Proof.
  destruct (calculator s) as [w|] eqn:E.
  - assert (Hl : logSettingsStatus s
                 = logSettingsStatus (with_calculator (Some w) s))
      by now rewrite (with_calculator_same s w E).
    rewrite Hl.
    destruct (settings w) as [o|] eqn:Es.
    + rewrite (logSettingsStatus_at s w o Es). cbn [st evs res].
      rewrite (with_calculator_same s w E). repeat split.
    + rewrite (logSettingsStatus_undefined s w Es). cbn [st evs res].
      rewrite (with_calculator_same s w E). repeat split.
  - rewrite (logSettingsStatus_null s E). repeat split.
Qed.


(** ** The expression callback *)

Lemma timeouts_ok_all (l : list Expression) : timeouts (map registered_ok l) = [].
Proof. induction l as [|e l IH]; simpl; auto. Qed.

Lemma timeouts_unit_trace (l : list Expression) :
  forall (i : nat) (rs : list (result unit)), timeouts (unit_trace i l rs) = [].
Proof.
  induction l as [|u l IH]; intros i [|r rs]; try reflexivity.
  cbn [unit_trace]. rewrite timeouts_app, IH.
  now destruct r as [[]|e].
Qed.

Lemma call_names_app (a b : list Event) :
  map fst (calls (a ++ b)) = map fst (calls a) ++ map fst (calls b).
Proof. now rewrite calls_app, map_app. Qed.

Lemma call_names_ok_all (l : list Expression) :
  map fst (calls (map registered_ok l)) = map CSetExpression l.
Proof. induction l as [|e l IH]; simpl; congruence. Qed.

Lemma call_names_unit_trace (l : list Expression) :
  forall (i : nat) (rs : list (result unit)),
    map fst (calls (unit_trace i l rs))
    = map CSetExpression (attempted (unit_trace i l rs)).
Proof.
  induction l as [|u l IH]; intros i [|r rs]; try reflexivity.
  cbn [unit_trace]. rewrite call_names_app, attempted_app, map_app, IH.
  now destruct r as [[]|e].
Qed.

Lemma methods_before_init_expressions (s : State) :
  calculator s = None ->
  addExpressions_callback s =
    mkOut s
          [ EConsole Log [VStr "Adding expressions..."];
            EConsole Error [VStr "Error adding expressions:"; VTypeError] ]
          (Ret tt)
  /\ addExpressions_try s = mkOut s [] (Throw VTypeError).
Proof.
  intros E. split; [|now apply addExpressions_try_null].
  rewrite addExpressions_callback_struct, (addExpressions_try_null s E).
  reflexivity.
Qed.

(** X8.  The expression callback ends the pipeline, on every state: it
    never throws, registers no timer, and leaves the settings-ready flag,
    the clock and the timer queue alone; its widget calls are
    [setExpression] calls only, and the expressions it attempts are a
    prefix of the core expressions followed by the unit definitions. *)
Theorem expression_callback_is_terminal (s : State) :
  res (addExpressions_callback s) = Ret tt
  /\ timeouts (evs (addExpressions_callback s)) = []
  /\ isReady (st (addExpressions_callback s)) = isReady s
  /\ now (st (addExpressions_callback s)) = now s
  /\ timers (st (addExpressions_callback s)) = timers s
  /\ (exists k : nat,
        attempted (evs (addExpressions_callback s))
        = firstn k (coreExpressions ++ UNIT_DEFINITIONS))
  /\ map fst (calls (evs (addExpressions_callback s)))
     = map CSetExpression (attempted (evs (addExpressions_callback s))).
Proof.
  destruct (expressions_keep_clock s) as [Hn Hq].
  assert (Hr : isReady (st (addExpressions_callback s)) = isReady s).
  { apply (keeps_addExpressions_callback ready_untouched);
      try solve [ intros; split; reflexivity ].
    intros a b c [H1 H2] [H3 H4]. split; congruence. }
  split.
  { rewrite addExpressions_callback_struct.
    now destruct (res (addExpressions_try s)). }
  split; [|split; [exact Hr|split; [exact Hn|split; [exact Hq|]]]];
    clear Hn Hq Hr.
  - destruct (calculator s) as [w|] eqn:E.
    + destruct (addExpressions_callback_eq s w E)
        as (w' & [(rs & _ & _ & ->) | (l1 & e & l2 & x & _ & _ & ->)]);
        cbn [evs]; rewrite timeouts_console, !timeouts_app, timeouts_ok_all,
          ?timeouts_unit_trace; reflexivity.
    + destruct (methods_before_init_expressions s E) as [-> _]. reflexivity.
  - destruct (calculator s) as [w|] eqn:E.
    + destruct (addExpressions_callback_eq s w E)
        as (w' & [(rs & Hl & _ & ->) | (l1 & e & l2 & x & Hs & _ & ->)]);
        cbn [evs].
      * split.
        { exists (length (coreExpressions ++ UNIT_DEFINITIONS)).
          rewrite firstn_all, attempted_console, !attempted_app,
            attempted_ok_all, (attempted_unit_trace _ _ _ Hl).
          cbn [attempted flat_map app]. now rewrite app_nil_r. }
        rewrite calls_console, attempted_console, !call_names_app,
          !attempted_app, !map_app, call_names_ok_all, attempted_ok_all,
          call_names_unit_trace.
        reflexivity.
      * split.
        { exists (length (l1 ++ [e]) + 0).
          rewrite Hs.
          replace ((l1 ++ e :: l2) ++ UNIT_DEFINITIONS)
            with ((l1 ++ [e]) ++ (l2 ++ UNIT_DEFINITIONS))
            by (rewrite <- !app_assoc; reflexivity).
          rewrite firstn_app_2. cbn [firstn]. rewrite app_nil_r.
          rewrite attempted_console, attempted_app, attempted_ok_all.
          reflexivity. }
        rewrite calls_console, attempted_console, call_names_app,
          attempted_app, map_app, call_names_ok_all, attempted_ok_all.
        reflexivity.
    + destruct (methods_before_init_expressions s E) as [-> _].
      split; [exists 0; reflexivity | reflexivity].
Qed.

(** X9.  Unit failures do not hold back readiness: with a widget in place,
    once the core batch has returned the callback writes its success line
    and sets the fully-ready flag and [window.calculatorFullyReady],
    whichever unit registrations throw. *)
Theorem unit_failures_do_not_withhold_ready (s : State) (w : Widget) :
  calculator s = Some w ->
  res (addCoreExpressions s) = Ret tt ->
  isFullyReady (st (addExpressions_callback s)) = true
  /\ get "calculatorFullyReady" (window (st (addExpressions_callback s)))
     = VBool true
  /\ In (EConsole Log [VStr "All expressions added successfully!"])
        (evs (addExpressions_callback s)).
Proof.
  intros E Hc.
  destruct (addExpressions_callback_eq s w E)
    as (w' & [(rs & _ & _ & ->) | (l1 & e & l2 & x & _ & Hx & _)]).
  - cbn [st evs]. split; [reflexivity|]. split; [apply get_set_same|].
    right. apply in_or_app. right. apply in_or_app. right. now left.
  - rewrite Hc in Hx. discriminate.
Qed.

(** ** A widget without a settings snapshot *)

(** X10.  When both batch calls return but the widget's [settings] is
    undefined, the [TypeError] of [logSettingsStatus] is caught like a
    settings failure: the success line is followed by the error line, the
    individual path runs and calls [setMathBounds] a second time, and the
    settings-ready flag and the globals are left as they were. *)
Theorem missing_snapshot_takes_the_individual_path
    (s : State) (w w1 w2 : Widget) :
  calculator s = Some w ->
  updateSettings DEFAULT_SETTINGS w = (w1, Ret tt) ->
  setMathBounds DEFAULT_BOUNDS w1 = (w2, Ret tt) ->
  settings w2 = None ->
  (exists r1 r2 r3 : result unit,
     evs (applySettings_callback s) =
       [ EConsole Log [VStr "Applying calculator settings..."];
         ECall (CUpdateSettings DEFAULT_SETTINGS) (Ret tt);
         ECall (CSetMathBounds DEFAULT_BOUNDS) (Ret tt);
         EConsole Log
           [VStr ("setMathBounds called with bounds: "
                  ++ bounds_text DEFAULT_BOUNDS)%string];
         EConsole Log [VStr "Settings applied successfully!"];
         EConsole Error [VStr "Error applying settings:"; VTypeError] ]
       ++ setting_events [("degreeMode", VBool false)] "Degree mode" r1
       ++ setting_events [("xAxisScale", VStr "logarithmic")]
            "X-axis logarithmic scale" r2
       ++ bounds_events r3
       ++ [ETimeout TAddExpressions 200])
  /\ isReady (st (applySettings_callback s)) = isReady s
  /\ window (st (applySettings_callback s)) = window s.
Proof.
  intros E Hu Hb Hs.
  rewrite applySettings_callback_eq, applySettings_guarded_eq,
    (applySettings_try_eq s w E).
  cbv zeta. rewrite Hu. cbn [fst snd]. rewrite Hb. cbn [fst snd].
  rewrite Hs. cbn [st evs res].
  rewrite applySettingsIndividually_at. cbv zeta. cbn [st evs res].
  split; [|split; reflexivity].
  do 3 eexists. cbn [app]. rewrite <- !app_assoc. reflexivity.
Qed.


(** ** What the script passes to its surroundings *)

Section Emits.

Variable Q : Event -> Prop.

Lemma emits_ret {A : Type} (a : A) : emits Q (ret a).
Proof. intros s. constructor. Qed.

Lemma emits_emit (ev : Event) : Q ev -> emits Q (emit ev).
Proof. intros H s. repeat constructor. exact H. Qed.

Lemma emits_bind {A B : Type} (m : M A) (k : A -> M B) :
  emits Q m -> (forall a : A, emits Q (k a)) -> emits Q (bind m k).
Proof.
  intros Hm Hk s. unfold bind. specialize (Hm s).
  destruct (res (m s)) as [a|e]; cbn [evs]; [|exact Hm].
  apply Forall_app. split; [exact Hm | apply Hk].
Qed.

Lemma emits_try (m : M unit) (h : value -> M unit) :
  emits Q m -> (forall e : value, emits Q (h e)) -> emits Q (try_catch m h).
Proof.
  intros Hm Hh s. unfold try_catch. specialize (Hm s).
  destruct (res (m s)) as [a|e]; cbn [evs]; [exact Hm|].
  apply Forall_app. split; [exact Hm | apply Hh].
Qed.

Lemma emits_forEach_from {A : Type} (f : A -> nat -> M unit) (l : list A) :
  (forall (x : A) (i : nat), In x l -> emits Q (f x i)) ->
  forall i : nat, emits Q (forEach_from i l f).
Proof.
  induction l as [|x l IH]; intros Hf i; cbn [forEach_from].
  - apply emits_ret.
  - apply emits_bind; [apply Hf; now left|].
    intros _. apply IH. intros y j Hy. apply Hf. now right.
Qed.

Lemma emits_widget_call (c : Call) :
  (forall r : result unit, Q (ECall c r)) -> emits Q (widget_call c).
Proof.
  intros H s. unfold widget_call.
  destruct (calculator s) as [w|]; [|constructor].
  destruct (invoke c w). repeat constructor. apply H.
Qed.

Lemma emits_read_setting (k : string) : emits Q (read_setting k).
Proof.
  intros s. unfold read_setting.
  destruct (calculator s) as [w|]; [destruct (settings w)|]; constructor.
Qed.

Lemma emits_set_isReady (b : bool) : emits Q (set_isReady b).
Proof. intros s. constructor. Qed.

Lemma emits_set_isFullyReady (b : bool) : emits Q (set_isFullyReady b).
Proof. intros s. constructor. Qed.

Lemma emits_set_global (name : string) (v : value) :
  Q (EGlobal name v) -> emits Q (set_global name v).
Proof. intros H s. repeat constructor. exact H. Qed.

Lemma emits_setTimeout (t : Task) (delay : nat) :
  Q (ETimeout t delay) -> emits Q (setTimeout t delay).
Proof. intros H s. repeat constructor. exact H. Qed.

Lemma emits_construct (el : Element) (config : obj) :
  (forall (mount : string) (r : result unit), Q (EConstruct mount config r)) ->
  emits Q (construct el config).
Proof.
  intros H s. unfold construct.
  destruct (GraphingCalculator el config); repeat constructor; apply H.
Qed.

End Emits.

Ltac fixed_steps :=
  repeat first [ apply emits_ret
               | apply emits_read_setting
               | apply emits_set_isReady
               | apply emits_set_isFullyReady
               | apply emits_emit; exact I
               | apply emits_set_global; cbn; auto
               | apply emits_setTimeout; cbn; auto
               | apply emits_widget_call; intros; cbn; auto
               | apply emits_try; intros
               | apply emits_bind; intros ].

Lemma fixed_logSettingsStatus : emits fixed_event logSettingsStatus.
Proof. unfold logSettingsStatus. fixed_steps. Qed.

Lemma fixed_applySettingsIndividually : emits fixed_event applySettingsIndividually.
Proof.
  unfold applySettingsIndividually, forEach.
  apply emits_bind.
  - apply emits_forEach_from. intros [setting name] i Hin. unfold try_setting.
    apply emits_try; [apply emits_bind|]; intros;
      try (apply emits_emit; exact I).
    apply emits_widget_call. intros r. cbn. right.
    apply (in_map fst) in Hin. exact Hin.
  - intros _. fixed_steps.
Qed.

Lemma fixed_addCoreExpressions : emits fixed_event addCoreExpressions.
Proof.
  apply emits_forEach_from. intros e i Hin. unfold add_core.
  apply emits_widget_call. intros r. cbn [fixed_event fixed_call].
  apply in_or_app. now left.
Qed.

Lemma fixed_addUnitDefinitions : emits fixed_event addUnitDefinitions.
Proof.
  apply emits_forEach_from. intros e i Hin. unfold add_unit.
  apply emits_try; [apply emits_bind|]; intros;
    try (apply emits_emit; exact I).
  apply emits_widget_call. intros r. cbn [fixed_event fixed_call].
  apply in_or_app. now right.
Qed.

Lemma fixed_callback (t : Task) : emits fixed_event (callback t).
Proof.
  destruct t; cbn [callback].
  - unfold applySettings_callback, applySettings_guarded, applySettings_try,
      addExpressions.
    repeat first [ apply fixed_logSettingsStatus
                 | apply fixed_applySettingsIndividually
                 | apply emits_set_isReady
                 | apply emits_emit; exact I
                 | apply emits_set_global; cbn; auto
                 | apply emits_setTimeout; cbn; auto
                 | apply emits_widget_call; intros; cbn; auto
                 | apply emits_try; intros
                 | apply emits_bind; intros ].
  - unfold addExpressions_callback, addExpressions_try.
    repeat first [ apply fixed_addCoreExpressions
                 | apply fixed_addUnitDefinitions
                 | apply emits_set_isFullyReady
                 | apply emits_emit; exact I
                 | apply emits_set_global; cbn; auto
                 | apply emits_try; intros
                 | apply emits_bind; intros ].
Qed.

Lemma fixed_init : emits fixed_event init.
Proof.
  intros s. rewrite init_eq.
  destruct (getElementById (elementId s)) as [el|]; [|repeat constructor].
  destruct (GraphingCalculator el CALCULATOR_CONFIG);
    cbn [evs]; repeat constructor; cbn; auto.
Qed.

Lemma fixed_fire : emits fixed_event fire.
Proof.
  intros s. unfold fire. destruct (timers s) as [|[due t] q]; [constructor|].
  apply fixed_callback.
Qed.

Lemma fixed_fire_n (n : nat) : emits fixed_event (fire_n n).
Proof.
  induction n as [|n IH]; cbn [fire_n]; [apply emits_ret|].
  apply emits_bind; [|intros _; exact IH].
  apply emits_try; [apply fixed_fire | intros _; apply emits_ret].
Qed.

(** X11.  Console lines apart, everything the script passes to its
    surroundings is one of its own literals, on every state and for every
    widget: the widget is constructed with the static configuration only,
    [updateSettings] gets the default settings or one of the two fallback
    settings, [setMathBounds] the default bounds, [setExpression] one of the
    fourteen fixed expressions; the only globals written are [desmosCalc]
    (the handle), [calculatorReady] and [calculatorFullyReady] (both only
    ever [true]); the only timers are the settings callback at 500 and the
    expression callback at 200. *)
Theorem script_passes_only_its_literals :
  (forall (m : Method) (s : State), Forall fixed_event (evs (perform m s)))
  /\ (forall (z : string) (n : nat), Forall fixed_event (evs (session z n))).
Proof.
  split.
  - intros m s. destruct m; cbn [perform].
    + apply fixed_init.
    + apply emits_setTimeout. cbn. auto.
    + apply fixed_applySettingsIndividually.
    + apply fixed_logSettingsStatus.
    + apply emits_setTimeout. cbn. auto.
    + apply fixed_addCoreExpressions.
    + apply fixed_addUnitDefinitions.
    + apply fixed_fire.
  - intros z n. unfold session.
    apply emits_bind; [|intros _; apply fixed_fire_n].
    apply emits_try; [apply fixed_init | intros _; apply emits_ret].
Qed.


(** ** The globals and the flags *)









(** ** The settings callback *)

(** X13.  Retries are bounded: on every state the settings callback makes
    at most five widget calls, at most two of them [setMathBounds], registers
    exactly one timer and attempts no expression. *)
Theorem settings_callback_calls_are_bounded (s : State) :
  length (calls (evs (applySettings_callback s))) <= 5
  /\ length (bounds_calls (evs (applySettings_callback s))) <= 2
  /\ timeouts (evs (applySettings_callback s)) = [(TAddExpressions, 200)]
  /\ attempted (evs (applySettings_callback s)) = [].
Proof.
  rewrite applySettings_callback_eq, applySettings_guarded_eq. cbn [evs].
  destruct (calculator s) as [w|] eqn:E.
  - rewrite (applySettings_try_eq s w E). cbv zeta.
    destruct (updateSettings DEFAULT_SETTINGS w) as [w1 [[]|e1]]; cbn [fst snd].
    2:{ cbn [st evs res]. rewrite applySettingsIndividually_at. cbv zeta.
        cbn [st evs res]. autorewrite with events. cbn. repeat split; lia. }
    destruct (setMathBounds DEFAULT_BOUNDS w1) as [w2 [[]|e2]]; cbn [fst snd].
    2:{ cbn [st evs res]. rewrite applySettingsIndividually_at. cbv zeta.
        cbn [st evs res]. autorewrite with events. cbn. repeat split; lia. }
    destruct (settings w2) as [o|]; cbn [st evs res].
    + unfold settings_success_events, status_lines.
      autorewrite with events. cbn. repeat split; lia.
    + rewrite applySettingsIndividually_at. cbv zeta.
      cbn [st evs res]. autorewrite with events. cbn. repeat split; lia.
  - rewrite (applySettings_try_null s E). cbn [st evs res].
    rewrite (applySettingsIndividually_null s E). cbn [st evs res].
    autorewrite with events. cbn. repeat split; lia.
Qed.


(** ** A session without an error line *)

Lemma no_error_line_app (a b : list Event) :
  no_error_line (a ++ b) = no_error_line a && no_error_line b.
Proof. apply forallb_app. Qed.

Lemma evs_fire_n_S (n : nat) (s : State) :
  evs (fire_n (S n) s) = evs (fire s) ++ evs (fire_n n (st (fire s))).
Proof.
  cbn [fire_n].
  rewrite (bind_Ret _ _ _ tt (res_try_ignore _ _)). cbn [evs].
  now rewrite evs_try_ignore, st_try_ignore.
Qed.

Lemma evs_fire_n_last (n : nat) :
  forall s : State,
    evs (fire_n (S n) s) = evs (fire_n n s) ++ evs (fire (st (fire_n n s))).
Proof.
  induction n as [|n IH]; intros s.
  - rewrite evs_fire_n_S. cbn [fire_n ret evs st]. now rewrite app_nil_r.
  - rewrite evs_fire_n_S, IH, app_assoc, <- evs_fire_n_S.
    now rewrite <- st_fire_n_S.
Qed.

(** One more timer in a session: its events come last. *)
Lemma evs_session_S (z : string) (n : nat) :
  evs (session z (S n)) = evs (session z n) ++ evs (fire (st (session z n))).
Proof.
  rewrite st_session. unfold session.
  rewrite !(bind_Ret _ _ _ tt (res_try_ignore _ _)). cbn [evs].
  rewrite st_try_ignore, evs_fire_n_last. now rewrite app_assoc.
Qed.

Lemma calls_ok_all (l : list Expression) :
  calls (map registered_ok l) = map (fun e => (CSetExpression e, Ret tt)) l.
Proof. induction l as [|e l IH]; simpl; congruence. Qed.

Lemma calls_clean_unit_trace (l : list Expression) :
  forall (i : nat) (rs : list (result unit)),
    length rs = length l ->
    no_error_line (unit_trace i l rs) = true ->
    calls (unit_trace i l rs) = map (fun e => (CSetExpression e, Ret tt)) l.
Proof.
  induction l as [|u l IH]; intros i [|r rs] Hn Hok; try discriminate; auto.
  destruct r as [[]|e]; [|discriminate].
  simpl in Hok |- *. f_equal. apply IH; [simpl in Hn; lia | exact Hok].
Qed.

(** A settings callback that writes no error line took the [try] block to
    its end. *)
Lemma clean_settings_callback (s : State) (w : Widget) :
  calculator s = Some w ->
  no_error_line (evs (applySettings_callback s)) = true ->
  exists w' : Widget,
    st (applySettings_callback s)
    = scheduled TAddExpressions 200 (settings_ready (with_calculator (Some w') s))
    /\ calls (evs (applySettings_callback s))
       = [ (CUpdateSettings DEFAULT_SETTINGS, Ret tt);
           (CSetMathBounds DEFAULT_BOUNDS, Ret tt) ].
Proof.
  intros E. rewrite applySettings_callback_eq, applySettings_guarded_eq.
  rewrite (applySettings_try_eq s w E). cbv zeta.
  destruct (updateSettings DEFAULT_SETTINGS w) as [w1 [[]|e1]]; cbn [fst snd];
    [|cbn [st evs res]; intros H; discriminate H].
  destruct (setMathBounds DEFAULT_BOUNDS w1) as [w2 [[]|e2]]; cbn [fst snd];
    [|cbn [st evs res]; intros H; discriminate H].
  destruct (settings w2) as [o|]; cbn [st evs res];
    [|intros H; discriminate H].
  intros _. exists w2. split; [reflexivity|].
  unfold settings_success_events, status_lines. now autorewrite with events.
Qed.

(** An expression callback that writes no error line registered all
    fourteen expressions. *)
Lemma clean_expression_callback (s : State) (w : Widget) :
  calculator s = Some w ->
  no_error_line (evs (addExpressions_callback s)) = true ->
  exists w' : Widget,
    st (addExpressions_callback s) = fully_ready (with_calculator (Some w') s)
    /\ calls (evs (addExpressions_callback s))
       = map (fun e => (CSetExpression e, Ret tt))
             (coreExpressions ++ UNIT_DEFINITIONS).
Proof.
  intros E.
  destruct (addExpressions_callback_eq s w E)
    as (w' & [(rs & Hn & _ & ->) | (l1 & e & l2 & x & _ & _ & ->)]);
    cbn [st evs]; intros Hok.
  - exists w'. split; [reflexivity|].
    change (no_error_line
              ([EConsole Log [VStr "Adding expressions..."]]
               ++ map registered_ok coreExpressions
               ++ unit_trace 0 UNIT_DEFINITIONS rs
               ++ [ EConsole Log [VStr "All expressions added successfully!"];
                    EGlobal "calculatorFullyReady" (VBool true) ]) = true) in Hok.
    rewrite !no_error_line_app in Hok.
    apply andb_prop in Hok as [_ Hok]. apply andb_prop in Hok as [_ Hok].
    apply andb_prop in Hok as [Hok _].
    rewrite calls_console, !calls_app, calls_ok_all,
      (calls_clean_unit_trace _ _ _ Hn Hok), map_app.
    cbn [calls flat_map app]. now rewrite app_nil_r.
  - exfalso.
    change (no_error_line
              ([EConsole Log [VStr "Adding expressions..."]]
               ++ map registered_ok l1
               ++ [ ECall (CSetExpression e) (Throw x);
                    EConsole Error [VStr "Error adding expressions:"; x] ]) = true)
      in Hok.
    rewrite !no_error_line_app in Hok.
    apply andb_prop in Hok as [_ Hok]. apply andb_prop in Hok as [_ Hok].
    discriminate Hok.
Qed.

(** X14.  A session that wrote no [console.error] line is a complete one:
    with the element and the widget in place, if the console shows no error
    line after the two timers, then the widget received exactly sixteen
    calls, all of which returned (the default settings, the default bounds,
    the six core expressions and the eight unit definitions, in this order),
    both flags are [true] and the three globals are set. *)
Theorem clean_session_is_complete (z : string) (el : Element) (w0 : Widget) :
  getElementById "calculator" = Some el ->
  GraphingCalculator el CALCULATOR_CONFIG = Ret w0 ->
  no_error_line (evs (session z 2)) = true ->
  calls (evs (session z 2))
  = (CUpdateSettings DEFAULT_SETTINGS, Ret tt)
    :: (CSetMathBounds DEFAULT_BOUNDS, Ret tt)
    :: map (fun e => (CSetExpression e, Ret tt))
           (coreExpressions ++ UNIT_DEFINITIONS)
  /\ isReady (st (session z 2)) = true
  /\ isFullyReady (st (session z 2)) = true
  /\ get "desmosCalc" (window (st (session z 2))) = VHandle
  /\ get "calculatorReady" (window (st (session z 2))) = VBool true
  /\ get "calculatorFullyReady" (window (st (session z 2))) = VBool true.
Proof.
  intros Hel Hw Hok.
  assert (Hi : init (new_manager "calculator" z) =
               mkOut (scheduled TApplySettings 500
                        (with_window
                           (set "desmosCalc" VHandle
                              (window (new_manager "calculator" z)))
                           (with_calculator (Some w0) (new_manager "calculator" z))))
                     [ EConsole Log [VStr "Initializing Desmos Calculator..."];
                       EConstruct "calculator" CALCULATOR_CONFIG (Ret tt);
                       EGlobal "desmosCalc" VHandle;
                       EConsole Log
                         [VStr "Calculator object available as window.desmosCalc for debugging"];
                       ETimeout TApplySettings 500 ]
                     (Ret tt)).
  { rewrite init_eq. cbn [new_manager DesmosCalculatorManager elementId].
    now rewrite Hel, Hw. }
  set (sA := scheduled TApplySettings 500
               (with_window
                  (set "desmosCalc" VHandle (window (new_manager "calculator" z)))
                  (with_calculator (Some w0) (new_manager "calculator" z)))) in *.
  assert (Hf1 : fire sA = applySettings_callback (with_clock 500 [] sA))
    by apply (fire_head sA 500 TApplySettings [] eq_refl).
  set (s1 := with_clock 500 [] sA) in *.
  assert (He1 : evs (session z 1)
                = evs (init (new_manager "calculator" z))
                  ++ evs (applySettings_callback s1)).
  { rewrite evs_session_1, Hi. cbn [st]. now rewrite Hf1. }
  assert (Hs1 : st (session z 1) = st (applySettings_callback s1)).
  { rewrite st_session_S, st_session. cbn [fire_n ret st].
    rewrite Hi. cbn [st]. now rewrite Hf1. }
  rewrite evs_session_S, He1, !no_error_line_app in Hok.
  apply andb_prop in Hok as [Hok Hok2]. apply andb_prop in Hok as [_ Hok1].
  destruct (clean_settings_callback s1 w0 eq_refl Hok1) as (w1 & Hst1 & Hc1).
  rewrite Hs1, Hst1 in Hok2.
  set (sB := scheduled TAddExpressions 200
               (settings_ready (with_calculator (Some w1) s1))) in *.
  assert (Hf2 : fire sB = addExpressions_callback (with_clock 700 [] sB))
    by apply (fire_head sB 700 TAddExpressions [] eq_refl).
  set (s2 := with_clock 700 [] sB) in *.
  rewrite Hf2 in Hok2.
  destruct (clean_expression_callback s2 w1 eq_refl Hok2) as (w2 & Hst2 & Hc2).
  assert (Hst : st (session z 2) = fully_ready (with_calculator (Some w2) s2)).
  { rewrite st_session_S, Hs1, Hst1. fold sB. now rewrite Hf2. }
  split.
  - rewrite evs_session_S, He1, Hs1, Hst1. fold sB. rewrite Hf2.
    rewrite !calls_app, Hc1, Hc2, Hi. reflexivity.
  - rewrite Hst. repeat split.
Qed.


(** ** The timers of a session *)

Lemma expression_callback_sets_no_timer (s : State) :
  timeouts (evs (addExpressions_callback s)) = [].
Proof.
  destruct (calculator s) as [w|] eqn:E.
  - destruct (addExpressions_callback_eq s w E)
      as (w' & [(rs & _ & _ & ->) | (l1 & e & l2 & x & _ & _ & ->)]);
      cbn [evs]; rewrite timeouts_console, !timeouts_app, timeouts_ok_all,
        ?timeouts_unit_trace; reflexivity.
  - destruct (methods_before_init_expressions s E) as [-> _]. reflexivity.
Qed.

(** X4.  With the element and the widget in place, a page session registers
    two timers and no more, in this order: [init] the settings callback
    with a delay of 500, then the settings callback, as its last action and
    after its widget calls, the expression callback with a delay of 200.
    Each is the only timer pending until it fires. *)
Theorem session_registers_two_timers_in_order
    (z : string) (el : Element) (w : Widget) :
  getElementById "calculator" = Some el ->
  GraphingCalculator el CALCULATOR_CONFIG = Ret w ->
  timeouts (evs (initializeCalculator z)) = [(TApplySettings, 500)]
  /\ map snd (timers (st (initializeCalculator z))) = [TApplySettings]
  /\ (exists pre : list Event,
        evs (session z 1) = pre ++ [ETimeout TAddExpressions 200]
        /\ timeouts pre = [(TApplySettings, 500)]
        /\ attempted pre = [])
  /\ map snd (timers (st (session z 1))) = [TAddExpressions]
  /\ timeouts (evs (session z 2))
     = [(TApplySettings, 500); (TAddExpressions, 200)]
  /\ timers (st (session z 2)) = [].
Proof.
  intros Hel Hw.
  assert (Hi : init (new_manager "calculator" z) =
               mkOut (scheduled TApplySettings 500
                        (with_window
                           (set "desmosCalc" VHandle
                              (window (new_manager "calculator" z)))
                           (with_calculator (Some w) (new_manager "calculator" z))))
                     [ EConsole Log [VStr "Initializing Desmos Calculator..."];
                       EConstruct "calculator" CALCULATOR_CONFIG (Ret tt);
                       EGlobal "desmosCalc" VHandle;
                       EConsole Log
                         [VStr "Calculator object available as window.desmosCalc for debugging"];
                       ETimeout TApplySettings 500 ]
                     (Ret tt)).
  { rewrite init_eq. cbn [new_manager DesmosCalculatorManager elementId].
    now rewrite Hel, Hw. }
  set (sA := scheduled TApplySettings 500
               (with_window
                  (set "desmosCalc" VHandle (window (new_manager "calculator" z)))
                  (with_calculator (Some w) (new_manager "calculator" z)))) in *.
  assert (Hf1 : fire sA = applySettings_callback (with_clock 500 [] sA))
    by apply (fire_head sA 500 TApplySettings [] eq_refl).
  set (s1 := with_clock 500 [] sA) in *.
  assert (He1 : evs (session z 1)
                = evs (init (new_manager "calculator" z))
                  ++ evs (applySettings_callback s1)).
  { rewrite evs_session_1, Hi. cbn [st]. now rewrite Hf1. }
  assert (Hs1 : st (session z 1) = st (applySettings_callback s1)).
  { rewrite st_session_S, st_session. cbn [fire_n ret st].
    rewrite Hi. cbn [st]. now rewrite Hf1. }
  destruct (settings_phase_events s1) as (pre & Hpre & Htp & Hap).
  destruct (settings_phase_timers s1) as [Hq1 _].
  assert (Hq : timers (st (session z 1)) = [(700, TAddExpressions)]).
  { rewrite Hs1, Hq1. reflexivity. }
  unfold initializeCalculator. rewrite Hi. cbn [st evs].
  split; [reflexivity|]. split; [reflexivity|].
  split.
  { exists (evs (init (new_manager "calculator" z)) ++ pre).
    rewrite He1, Hpre, Hi. cbn [evs].
    split; [now rewrite <- app_assoc|].
    split; [now rewrite timeouts_app, Htp | now rewrite attempted_app, Hap]. }
  split; [now rewrite Hq|].
  split; [|apply session_2_timers].
  rewrite evs_session_S, He1, Hpre, Hi, (fire_head _ _ _ _ Hq). cbn [evs callback].
  rewrite !timeouts_app, Htp, expression_callback_sets_no_timer.
  reflexivity.
Qed.

End Properties.

(** * Concrete runs *)

(** ** The scripted widget keeps what it is given *)

Lemma get_set_other (k k' : string) (v : value) (o : obj) :
  String.eqb k k' = false -> get k (set k' v o) = get k o.
Proof.
  intros E. induction o as [|[k0 v0] o IH]; simpl.
  - now rewrite E.
  - destruct (String.eqb k' k0) eqn:E0; simpl.
    + apply String.eqb_eq in E0. subst k0. now rewrite E.
    + now rewrite IH.
Qed.

Lemma get_merge (o : obj) :
  forall (into : obj) (k : string),
    NoDup (map fst o) ->
    get k (Scripted.merge o into)
    = if existsb (String.eqb k) (map fst o) then get k o else get k into.
Proof.
  unfold Scripted.merge.
  induction o as [|[k1 v1] o IH]; intros into k Hnd; [reflexivity|].
  inversion Hnd as [|? ? Hnotin Hnd']; subst.
  cbn [fold_left fst snd map existsb get]. rewrite (IH _ _ Hnd').
  destruct (String.eqb k k1) eqn:E; cbn [orb].
  - apply String.eqb_eq in E. subst k1.
    destruct (existsb (String.eqb k) (map fst o)) eqn:Ex.
    + exfalso. apply Hnotin. apply existsb_exists in Ex as (x & Hin & Hx).
      apply String.eqb_eq in Hx. now subst x.
    + apply get_set_same.
  - destruct (existsb (String.eqb k) (map fst o)); [reflexivity|].
    now apply get_set_other.
Qed.

Lemma scripted_updateSettings_keeps (faulty : nat -> Call -> bool)
    (o : obj) (w0 w' : Scripted.W) :
  NoDup (map fst o) ->
  updateSettings (External := Scripted.external faulty) o w0 = (w', Ret tt) ->
  exists so : obj,
    settings (External := Scripted.external faulty) w' = Some so
    /\ forall k : string, In k (map fst o) -> get k so = get k o.
Proof.
  intros Hnd. cbn [updateSettings settings Scripted.external]. unfold Scripted.method.
  destruct (faulty (Scripted.ncalls w0) (CUpdateSettings o)); [discriminate|].
  intros [= <-]. cbn [Scripted.perform Scripted.applied].
  eexists. split; [reflexivity|]. intros k Hin. rewrite (get_merge _ _ _ Hnd).
  destruct (existsb (String.eqb k) (map fst o)) eqn:Ex; [reflexivity|].
  exfalso. apply Bool.not_true_iff_false in Ex. apply Ex.
  apply existsb_exists. exists k. split; [exact Hin | apply String.eqb_refl].
Qed.

Lemma scripted_setMathBounds_keeps (faulty : nat -> Call -> bool)
    (b : Bounds) (w0 w' : Scripted.W) :
  setMathBounds (External := Scripted.external faulty) b w0 = (w', Ret tt) ->
  settings (External := Scripted.external faulty) w'
  = settings (External := Scripted.external faulty) w0
  /\ Scripted.view w' = Some b.
Proof.
  cbn [setMathBounds settings Scripted.external]. unfold Scripted.method.
  destruct (faulty (Scripted.ncalls w0) (CSetMathBounds b)); [discriminate|].
  intros [= <-]. split; reflexivity.
Qed.

(** ** Runs with the scripted widget *)

(** The third unit registration throws; all eight are attempted. *)
Lemma unit_loop_attempts_all_witness :
  calculator (Scripted.after_settings (Scripted.nth_call 4))
  = Some (Scripted.perform (CSetMathBounds DEFAULT_BOUNDS)
            (Scripted.perform (CUpdateSettings DEFAULT_SETTINGS) Scripted.fresh))
  /\ (res (addUnitDefinitions (Scripted.after_settings (Scripted.nth_call 4))) = Ret tt
      /\ attempted (evs (addUnitDefinitions (Scripted.after_settings (Scripted.nth_call 4))))
         = UNIT_DEFINITIONS
      /\ length (attempted
                   (evs (addUnitDefinitions (Scripted.after_settings (Scripted.nth_call 4)))))
         = 8).
Proof.
  split; [reflexivity|].
  apply (unit_loop_attempts_all (X := Scripted.external (Scripted.nth_call 4))
           (Scripted.after_settings (Scripted.nth_call 4))
           (Scripted.perform (CSetMathBounds DEFAULT_BOUNDS)
              (Scripted.perform (CUpdateSettings DEFAULT_SETTINGS) Scripted.fresh))).
  reflexivity.
Defined.

(** Nothing throws: fourteen registrations and the flag. *)
Lemma expression_phase_registers_all_witness :
  calculator (Scripted.after_settings Scripted.never)
  = Some (Scripted.perform (CSetMathBounds DEFAULT_BOUNDS)
            (Scripted.perform (CUpdateSettings DEFAULT_SETTINGS) Scripted.fresh))
  /\ no_registration_threw
       (evs (addExpressions_callback (Scripted.after_settings Scripted.never))) = true
  /\ registered (evs (addExpressions_callback (Scripted.after_settings Scripted.never)))
     = (coreExpressions ++ UNIT_DEFINITIONS)%list
  /\ isFullyReady (st (addExpressions_callback (Scripted.after_settings Scripted.never)))
     = true.
Proof.
  split; [reflexivity|]. split; [vm_compute; reflexivity|].
  destruct (expression_phase_registers_all (X := Scripted.external Scripted.never)
              (Scripted.after_settings Scripted.never)
              (Scripted.perform (CSetMathBounds DEFAULT_BOUNDS)
                 (Scripted.perform (CUpdateSettings DEFAULT_SETTINGS) Scripted.fresh))
              eq_refl)
    as (Hreg & _ & _ & _ & Hflag & _).
  - vm_compute. reflexivity.
  - split; [exact Hreg | exact Hflag].
Defined.

(** The batch [updateSettings] call throws; the individual path makes its
    three calls. *)
Lemma batch_failure_retries_each_setting_once_witness :
  calculator (Scripted.after_init (Scripted.nth_call 0)) = Some Scripted.fresh
  /\ updateSettings (External := Scripted.external (Scripted.nth_call 0))
       DEFAULT_SETTINGS Scripted.fresh
     = (Scripted.mkW (Scripted.applied Scripted.fresh) None [] 1,
        Throw (VError "widget"))
  /\ exists r1 r2 r3 : result unit,
       calls (evs (applySettings_callback (Scripted.after_init (Scripted.nth_call 0)))) =
         [ (CUpdateSettings DEFAULT_SETTINGS, Throw (VError "widget"));
           (CUpdateSettings [("degreeMode", VBool false)], r1);
           (CUpdateSettings [("xAxisScale", VStr "logarithmic")], r2);
           (CSetMathBounds DEFAULT_BOUNDS, r3) ].
Proof.
  split; [reflexivity|]. split; [reflexivity|].
  apply (batch_failure_retries_each_setting_once
           (X := Scripted.external (Scripted.nth_call 0))
           (Scripted.after_init (Scripted.nth_call 0))
           Scripted.fresh
           (Scripted.mkW (Scripted.applied Scripted.fresh) None [] 1)
           (VError "widget"));
    reflexivity.
Defined.

(** Every [setMathBounds] call throws: the one in the [try] block and the
    one of the individual path. *)
Lemma bounds_failure_in_batch_is_retried_once_witness :
  calculator (Scripted.after_init Scripted.every_setMathBounds) = Some Scripted.fresh
  /\ exists r3 : result unit,
       bounds_calls
         (evs (applySettings_callback (Scripted.after_init Scripted.every_setMathBounds)))
       = [(DEFAULT_BOUNDS, Throw (VError "widget")); (DEFAULT_BOUNDS, r3)].
Proof.
  split; [reflexivity|].
  destruct (bounds_failure_in_batch_is_retried_once
              (X := Scripted.external Scripted.every_setMathBounds)
              (Scripted.after_init Scripted.every_setMathBounds)
              Scripted.fresh
              (Scripted.perform (CUpdateSettings DEFAULT_SETTINGS) Scripted.fresh)
              (Scripted.mkW
                 (Scripted.applied
                    (Scripted.perform (CUpdateSettings DEFAULT_SETTINGS) Scripted.fresh))
                 None [] 2)
              (VError "widget") eq_refl eq_refl eq_refl)
    as [(r1 & r2 & r3 & _ & Hb) _].
  exists r3. exact Hb.
Defined.

(** C3 as stated fails: [setMathBounds] throws in the [try] block of the
    settings phase and is called a second time. *)
Lemma bounds_failure_is_retried :
  bounds_calls (evs (session (X := Scripted.external Scripted.every_setMathBounds) "Z" 1))
  = [ (DEFAULT_BOUNDS, Throw (VError "widget"));
      (DEFAULT_BOUNDS, Throw (VError "widget")) ]
  /\ calls (evs (session (X := Scripted.external Scripted.every_setMathBounds) "Z" 1))
     = [ (CUpdateSettings DEFAULT_SETTINGS, Ret tt);
         (CSetMathBounds DEFAULT_BOUNDS, Throw (VError "widget"));
         (CUpdateSettings [("degreeMode", VBool false)], Ret tt);
         (CUpdateSettings [("xAxisScale", VStr "logarithmic")], Ret tt);
         (CSetMathBounds DEFAULT_BOUNDS, Throw (VError "widget")) ].
Proof. split; vm_compute; reflexivity. Qed.



(** No element with the id [graph] on the page. *)
Lemma init_without_mount_point_witness :
  getElementById (External := Scripted.external Scripted.never) "graph" = None
  /\ init (X := Scripted.external Scripted.never) (new_manager "graph" "Z")
     = mkOut (new_manager "graph" "Z")
             [ EConsole Log [VStr "Initializing Desmos Calculator..."];
               EConsole Error [VStr "Element with ID 'graph' not found"] ]
             (Ret tt).
Proof.
  split; [reflexivity|].
  apply (init_without_mount_point (X := Scripted.external Scripted.never)
           (new_manager "graph" "Z")).
  reflexivity.
Defined.

(** A widget on which nothing throws: the settings and the bounds it ends
    up with. *)
Lemma settings_success_applies_defaults_witness :
  calculator (Scripted.after_init Scripted.never) = Some Scripted.fresh
  /\ res (applySettings_try (Scripted.after_init Scripted.never)) = Ret tt
  /\ exists (w' : Scripted.W) (so : obj),
       calculator (st (applySettings_callback (Scripted.after_init Scripted.never)))
       = Some w'
       /\ settings (External := Scripted.external Scripted.never) w' = Some so
       /\ get "degreeMode" so = VBool false
       /\ get "xAxisScale" so = VStr "logarithmic"
       /\ get "yAxisScale" so = VStr "linear"
       /\ Scripted.view w' =
            Some {| left := 10000; right := 10000000000; bottom := -2; top := 2 |}.
Proof.
  split; [reflexivity|]. split; [vm_compute; reflexivity|].
  apply (settings_success_applies_defaults
           (X := Scripted.external Scripted.never) Scripted.view
           (Scripted.after_init Scripted.never) Scripted.fresh).
  - intros o w0 w'. apply scripted_updateSettings_keeps.
  - intros b w0 w'. apply scripted_setMathBounds_keeps.
  - reflexivity.
  - vm_compute. reflexivity.
Defined.

(** C8 as stated fails: the batch [updateSettings] call throws, the
    individual path runs, the expression phase succeeds; the fully-ready flag
    is [true] and the settings-ready flag never became [true]. *)
Lemma fully_ready_without_settings_ready :
  isReady (st (session (X := Scripted.external (Scripted.nth_call 0)) "Z" 1)) = false
  /\ isReady (st (session (X := Scripted.external (Scripted.nth_call 0)) "Z" 2)) = false
  /\ isFullyReady (st (session (X := Scripted.external (Scripted.nth_call 0)) "Z" 2)) = true
  /\ get "calculatorReady"
         (window (st (session (X := Scripted.external (Scripted.nth_call 0)) "Z" 2)))
     = VUndefined
  /\ timers (st (session (X := Scripted.external (Scripted.nth_call 0)) "Z" 2)) = [].
Proof. repeat split; vm_compute; reflexivity. Qed.

(** ** Further runs *)

(** The page has the element and the library returns the widget. *)
Lemma init_with_mount_point_witness :
  getElementById (External := Scripted.external Scripted.never) "calculator" = Some tt
  /\ GraphingCalculator (External := Scripted.external Scripted.never) tt CALCULATOR_CONFIG
     = Ret Scripted.fresh
  /\ res (init (X := Scripted.external Scripted.never) (new_manager "calculator" "Z"))
     = Ret tt
  /\ calculator (st (init (X := Scripted.external Scripted.never)
                       (new_manager "calculator" "Z")))
     = Some Scripted.fresh
  /\ timeouts (evs (init (X := Scripted.external Scripted.never)
                      (new_manager "calculator" "Z")))
     = [(TApplySettings, 500)].
Proof.
  split; [reflexivity|]. split; [reflexivity|].
  destruct (init_with_mount_point (X := Scripted.external Scripted.never)
              (new_manager "calculator" "Z") tt Scripted.fresh eq_refl eq_refl)
    as (Hr & Hc & _ & _ & _ & Ht & _).
  split; [exact Hr|]. split; [exact Hc | exact Ht].
Defined.

(** The library throws when asked for the widget. *)
Lemma init_constructor_failure_witness :
  getElementById (External := Variants.no_library) "calculator" = Some tt
  /\ GraphingCalculator (External := Variants.no_library) tt CALCULATOR_CONFIG
     = Throw (VError "Desmos")
  /\ init (X := Variants.no_library) (new_manager "calculator" "Z")
     = mkOut (new_manager "calculator" "Z")
             [ EConsole Log [VStr "Initializing Desmos Calculator..."];
               EConstruct "calculator" CALCULATOR_CONFIG (Throw (VError "Desmos")) ]
             (Throw (VError "Desmos")).
Proof.
  split; [reflexivity|]. split; [reflexivity|].
  apply (init_constructor_failure (X := Variants.no_library)
           (new_manager "calculator" "Z") tt (VError "Desmos"));
    reflexivity.
Defined.


(** A manager on which [init] was not called. *)
Lemma methods_before_init_witness :
  calculator (X := Scripted.external Scripted.never) (new_manager "calculator" "Z") = None
  /\ addCoreExpressions (X := Scripted.external Scripted.never)
       (new_manager "calculator" "Z")
     = mkOut (new_manager "calculator" "Z") [] (Throw VTypeError)
  /\ res (addUnitDefinitions (X := Scripted.external Scripted.never)
            (new_manager "calculator" "Z"))
     = Ret tt.
Proof.
  split; [reflexivity|].
  destruct (methods_before_init (X := Scripted.external Scripted.never)
              (new_manager "calculator" "Z") eq_refl)
    as (Hc & _ & Hu & _).
  split; [exact Hc | now rewrite Hu].
Defined.

(** Every unit registration throws; the core batch has returned. *)
Lemma unit_failures_do_not_withhold_ready_witness :
  calculator (Scripted.after_settings (Variants.from_call 8))
  = Some (Scripted.perform (CSetMathBounds DEFAULT_BOUNDS)
            (Scripted.perform (CUpdateSettings DEFAULT_SETTINGS) Scripted.fresh))
  /\ res (addCoreExpressions (Scripted.after_settings (Variants.from_call 8))) = Ret tt
  /\ registered
       (evs (addExpressions_callback (Scripted.after_settings (Variants.from_call 8))))
     = coreExpressions
  /\ isFullyReady
       (st (addExpressions_callback (Scripted.after_settings (Variants.from_call 8))))
     = true.
Proof.
  split; [reflexivity|]. split; [vm_compute; reflexivity|].
  split; [vm_compute; reflexivity|].
  apply (unit_failures_do_not_withhold_ready
           (X := Scripted.external (Variants.from_call 8))
           (Scripted.after_settings (Variants.from_call 8))
           (Scripted.perform (CSetMathBounds DEFAULT_BOUNDS)
              (Scripted.perform (CUpdateSettings DEFAULT_SETTINGS) Scripted.fresh))).
  - reflexivity.
  - vm_compute. reflexivity.
Defined.

(** A widget that applies everything but has no [settings] property. *)
Lemma missing_snapshot_takes_the_individual_path_witness :
  calculator (st (initializeCalculator (X := Variants.no_snapshot) "Z"))
  = Some Scripted.fresh
  /\ settings (External := Variants.no_snapshot)
       (Scripted.perform (CSetMathBounds DEFAULT_BOUNDS)
          (Scripted.perform (CUpdateSettings DEFAULT_SETTINGS) Scripted.fresh))
     = None
  /\ isReady (st (applySettings_callback
                    (st (initializeCalculator (X := Variants.no_snapshot) "Z"))))
     = false
  /\ bounds_calls
       (evs (applySettings_callback
               (st (initializeCalculator (X := Variants.no_snapshot) "Z"))))
     = [(DEFAULT_BOUNDS, Ret tt); (DEFAULT_BOUNDS, Ret tt)].
Proof.
  split; [reflexivity|]. split; [reflexivity|].
  destruct (missing_snapshot_takes_the_individual_path
              (X := Variants.no_snapshot)
              (st (initializeCalculator (X := Variants.no_snapshot) "Z"))
              Scripted.fresh
              (Scripted.perform (CUpdateSettings DEFAULT_SETTINGS) Scripted.fresh)
              (Scripted.perform (CSetMathBounds DEFAULT_BOUNDS)
                 (Scripted.perform (CUpdateSettings DEFAULT_SETTINGS) Scripted.fresh))
              eq_refl eq_refl eq_refl eq_refl)
    as (_ & Hr & _).
  split; [rewrite Hr; reflexivity | vm_compute; reflexivity].
Defined.

(** A session on the scripted page in which nothing throws. *)
Lemma clean_session_is_complete_witness :
  no_error_line (evs (session (X := Scripted.external Scripted.never) "Z" 2)) = true
  /\ length (calls (evs (session (X := Scripted.external Scripted.never) "Z" 2))) = 16
  /\ isReady (st (session (X := Scripted.external Scripted.never) "Z" 2)) = true
  /\ isFullyReady (st (session (X := Scripted.external Scripted.never) "Z" 2)) = true.
Proof.
  split; [vm_compute; reflexivity|].
  destruct (clean_session_is_complete (X := Scripted.external Scripted.never)
              "Z" tt Scripted.fresh eq_refl eq_refl)
    as (Hc & Hr & Hf & _).
  - vm_compute. reflexivity.
  - split; [rewrite Hc; reflexivity|]. split; [exact Hr | exact Hf].
Defined.

(** The timers of a session on the scripted page. *)
Lemma session_registers_two_timers_in_order_witness :
  getElementById (External := Scripted.external Scripted.never) "calculator" = Some tt
  /\ GraphingCalculator (External := Scripted.external Scripted.never) tt CALCULATOR_CONFIG
     = Ret Scripted.fresh
  /\ timeouts (evs (session (X := Scripted.external Scripted.never) "Z" 2))
     = [(TApplySettings, 500); (TAddExpressions, 200)]
  /\ timers (st (session (X := Scripted.external Scripted.never) "Z" 2)) = [].
Proof.
  split; [reflexivity|]. split; [reflexivity|].
  destruct (session_registers_two_timers_in_order
              (X := Scripted.external Scripted.never)
              "Z" tt Scripted.fresh eq_refl eq_refl)
    as (_ & _ & _ & _ & H2 & Hq).
  split; [exact H2 | exact Hq].
Defined.
